(** * PyCart: a shallow embedding of [pycart.py]

    The development follows the module top to bottom: [load_conf], the pad
    button ([PyCartButton]) with its audio unit ([PyCartAudio]) and the
    broadcast clock ([Clock]).  Python values are modelled as follows.

    - [int] is [Z]; [//] and [%] are [Z.div] and [Z.modulo] (both floor
      towards minus infinity, as in Python, for a positive divisor).
    - [str] built by f-strings and [strftime] is [string].
    - a [dict] keyed by [str] is a [gmap string _]; the iteration order of
      [dict.values()] is the order of [map_to_list].
    - an exception is a value of [exn]; a call that may raise returns
      [PyResult].
    - a thread is a program counter in the state of a step function; a
      schedule (list of actions) chooses the interleaving. *)

From Stdlib Require Import ZArith Lia Ascii DecimalString.
From stdpp Require Import base option list strings gmap fin_maps.

Local Open Scope Z_scope.
Local Open Scope string_scope.

(** ** Exceptions *)

Inductive exn : Type :=
  | PyCartError (msg : string)
  | FileNotFoundError (fname : string)
  | WaveError
  | UnicodeDecodeError
  | LookupError (encoding : string)
  | TomlDecodeError
  | KeyError (key : string).

Inductive PyResult (A : Type) : Type :=
  | Return (a : A)
  | Raise (e : exn).
Arguments Return {A} a.
Arguments Raise {A} e.

(** Sequencing: the first exception raised aborts what follows.  With the
    instance, [x ← m; k] is stdpp's bind notation. *)
#[global] Instance PyResult_bind : MBind PyResult := fun A B k m =>
  match m with
  | Return a => k a
  | Raise e => Raise e
  end.

(** ** Integer formatting *)

Module PyFormat.

(** [str(n)] for an [int]. *)
Definition str (z : Z) : string := NilZero.string_of_int (Z.to_int z).

Fixpoint zeros (n : nat) : string :=
  match n with
  | O => ""
  | S n => "0" +:+ zeros n
  end.

(** [format(z, "0w")]: the sign, then zeros up to a total width of [w],
    then the digits.  [f"{z:02}"] is [format_zero 2 z]. *)
Definition format_zero (w : nat) (z : Z) : string :=
  let sign := if (z <? 0)%Z then "-" else "" in
  let digits := str (Z.abs z) in
  sign +:+ zeros (w - String.length sign - String.length digits)%nat +:+ digits.

Definition format_02 : Z -> string := format_zero 2.

End PyFormat.

(** ** [datetime] and the strings of one clock tick *)

Record datetime : Type := mk_datetime {
  hour : Z;
  minute : Z;
  second : Z
}.

(** The ranges [datetime] guarantees for its fields. *)
Definition datetime_ok (now : datetime) : Prop :=
  0 <= hour now < 24 /\ 0 <= minute now < 60 /\ 0 <= second now < 60.

(** [now.strftime("%H:%M:%S")]: each field as a two-digit decimal. *)
Definition strftime_HMS (now : datetime) : string :=
  PyFormat.format_02 (hour now) +:+ ":" +:+
  PyFormat.format_02 (minute now) +:+ ":" +:+
  PyFormat.format_02 (second now).

Module Clock.

(** [sec_remaining = (60 - now.second) % 60] *)
Definition sec_remaining (now : datetime) : Z :=
  (60 - second now) mod 60.

(** [min_remaining = (60 + (60 - now.second) // 60) - now.minute - 1] *)
Definition min_remaining (now : datetime) : Z :=
  (60 + (60 - second now) / 60) - minute now - 1.

Definition current_time (now : datetime) : string := strftime_HMS now.

(** [f"-{min_remaining:02}:{sec_remaining:02}"] *)
Definition remaining (now : datetime) : string :=
  "-" +:+ PyFormat.format_02 (min_remaining now) +:+ ":" +:+
  PyFormat.format_02 (sec_remaining now).

(** *** The observer registry and one tick

    A callback is a value of an arbitrary type [Callback]: the clock only
    stores it and calls it.  A call is recorded as an [invocation]; the key
    is kept with it to tell registrations apart. *)

Section Observers.
Context {Callback : Type}.

Record invocation : Type := mk_call {
  call_key : string;
  call_target : Callback;
  call_current_time : string;
  call_remaining : string
}.

(** [self.callbacks[name] = callback] *)
Definition add_callback (name : string) (callback : Callback)
    (callbacks : gmap string Callback) : gmap string Callback :=
  <[name := callback]> callbacks.

(** [del self.callbacks[name]] *)
Definition remove_callback (name : string)
    (callbacks : gmap string Callback) : PyResult (gmap string Callback) :=
  match callbacks !! name with
  | Some _ => Return (delete name callbacks)
  | None => Raise (KeyError name)
  end.

(** The body of the [while] loop up to [time.sleep]: [now] is read once and
    every value of the dictionary is called with the two strings. *)
Definition tick (now : datetime) (callbacks : gmap string Callback)
    : list invocation :=
  (fun kc => mk_call kc.1 kc.2 (current_time now) (remaining now))
    <$> map_to_list callbacks.

(** *** The clock thread and [stop]

    [run] is cut at its three statements; [stop] at its two.  The thread
    is started right after construction ([PyCart.__init__]). *)

Inductive run_pc : Type :=
  | AtWhile      (* about to test [self.enabled] *)
  | InBody       (* test passed, about to read [now] and call back *)
  | AtSleep      (* about to [time.sleep(0.25)] *)
  | RunReturned. (* [run] has returned: the thread is dead *)

Inductive stop_pc : Type :=
  | StopNotCalled
  | AtJoin        (* [self.enabled = False] done, blocked in [join] *)
  | StopReturned.

Inductive event : Type :=
  | EvTick (calls : list invocation)
  | EvStopReturned.

Record state : Type := mk_state {
  enabled : bool;
  callbacks : gmap string Callback;
  runner : run_pc;
  stopper : stop_pc;
  log : list event  (* newest first *)
}.

(** [Clock()] followed by [start()]. *)
Definition init : state := mk_state true ∅ AtWhile StopNotCalled [].

Inductive action : Type :=
  | RunStep (now : datetime)   (* the clock thread runs one statement *)
  | StopStep                   (* the caller of [stop] runs one statement *)
  | AddCallback (name : string) (callback : Callback)
  | RemoveCallback (name : string).

(** One statement of the clock thread; [None] when it has none left.  The
    loop over the callbacks is one step, taken on the registry as it is
    when the loop starts: the model covers the executions in which the
    registry is not changed while that loop runs and every callback
    returns. *)
Definition run_step (now : datetime) (s : state) : option state :=
  match runner s with
  | AtWhile =>
      Some (mk_state (enabled s) (callbacks s)
              (if enabled s then InBody else RunReturned) (stopper s) (log s))
  | InBody =>
      Some (mk_state (enabled s) (callbacks s) AtSleep (stopper s)
              (EvTick (tick now (callbacks s)) :: log s))
  | AtSleep =>
      Some (mk_state (enabled s) (callbacks s) AtWhile (stopper s) (log s))
  | RunReturned => None
  end.

(** One statement of [stop]; [join] is enabled only on a dead thread. *)
Definition stop_step (s : state) : option state :=
  match stopper s with
  | StopNotCalled =>
      Some (mk_state false (callbacks s) (runner s) AtJoin (log s))
  | AtJoin =>
      match runner s with
      | RunReturned =>
          Some (mk_state (enabled s) (callbacks s) (runner s) StopReturned
                  (EvStopReturned :: log s))
      | _ => None
      end
  | StopReturned => None
  end.

(** The registry is changed by the thread that also calls [stop], so not
    while that thread is blocked in [join].  A [KeyError] goes to the
    caller and leaves the clock as it was. *)
Definition step (a : action) (s : state) : option state :=
  match a with
  | RunStep now => run_step now s
  | StopStep => stop_step s
  | AddCallback name cb =>
      match stopper s with
      | AtJoin => None
      | _ => Some (mk_state (enabled s) (add_callback name cb (callbacks s))
                     (runner s) (stopper s) (log s))
      end
  | RemoveCallback name =>
      match stopper s with
      | AtJoin => None
      | _ =>
          match remove_callback name (callbacks s) with
          | Return cbs =>
              Some (mk_state (enabled s) cbs (runner s) (stopper s) (log s))
          | Raise _ => Some s
          end
      end
  end.

Fixpoint exec (sched : list action) (s : state) : option state :=
  match sched with
  | [] => Some s
  | a :: sched =>
      match step a s with
      | Some s' => exec sched s'
      | None => None
      end
  end.

Definition is_tick (e : event) : bool :=
  match e with
  | EvTick _ => true
  | EvStopReturned => false
  end.

Definition ticks (l : list event) : nat := length (filter is_tick l).

End Observers.

Arguments invocation : clear implicits.
Arguments event : clear implicits.
Arguments state : clear implicits.
Arguments action : clear implicits.

End Clock.

(** ** The world outside the program

    The file system and the three libraries that read files: [sndhdr],
    [simpleaudio] (through [wave]) and [toml].  Their verdict on the
    content of a file is a parameter; what they do with a missing file is
    not: [open] raises [FileNotFoundError]. *)

Definition bytes : Type := list Byte.byte.

(** A Python [str]: a sequence of code points. *)
Definition pystr : Type := list N.

Record SndHeaders : Type := mk_SndHeaders {
  filetype : string;
  framerate : Z;
  nchannels : Z;
  nframes : Z;
  sampwidth : Z
}.

Record WaveObject : Type := mk_WaveObject {
  audio_data : bytes;
  num_channels : Z;
  bytes_per_sample : Z;
  sample_rate : Z
}.

#[local] Set Warnings "-register-all".
Inductive toml_value : Type :=
  | TomlStr (s : pystr)
  | TomlInt (z : Z)
  | TomlBool (b : bool)
  | TomlArray (items : list toml_value)
  | TomlTable (items : list (pystr * toml_value)).
#[local] Set Warnings "register-all".

Record World : Type := mk_World {
  fs : gmap string bytes;
  (* the header tests of [sndhdr], tried in turn on the content *)
  sndhdr_tests : bytes -> option SndHeaders;
  (* [wave.open] and [readframes] on the content *)
  wave_read : bytes -> PyResult WaveObject;
  toml_loads : pystr -> PyResult (list (pystr * toml_value))
}.

(** [open(filename, "rb")] followed by reading the content. *)
Definition open_rb (w : World) (filename : string) : PyResult bytes :=
  match fs w !! filename with
  | Some content => Return content
  | None => Raise (FileNotFoundError filename)
  end.

(** [sndhdr.whathdr]: opens the file, then returns the first header
    recognised, or [None]. *)
Definition whathdr (w : World) (filename : string)
    : PyResult (option SndHeaders) :=
  content ← open_rb w filename;
  Return (sndhdr_tests w content).

(** [sa.WaveObject.from_wave_file] *)
Definition from_wave_file (w : World) (filename : string)
    : PyResult WaveObject :=
  content ← open_rb w filename;
  wave_read w content.

(** ** [pathlib.Path(fname).name] (POSIX flavour)

    The path is split at ['/']; empty components and ['.'] are dropped;
    the name is the last component left, or [''] when there is none. *)

Fixpoint split_slash (s : string) (cur : string) : list string :=
  match s with
  | EmptyString => [cur]
  | String c s' =>
      if Ascii.eqb c "/"%char then cur :: split_slash s' ""
      else split_slash s' (cur +:+ String c "")
  end.

Definition is_part (x : string) : bool :=
  negb (String.eqb x "") && negb (String.eqb x ".").

Definition parse_parts (fname : string) : list string :=
  filter is_part (split_slash fname "").

Definition Path_name (fname : string) : string :=
  default "" (last (parse_parts fname)).

(** ** [PyCartAudio] *)

Record PyCartAudio : Type := mk_PyCartAudio {
  info : SndHeaders;
  wav : WaveObject;
  file : string
}.

(** [PyCartAudio.__init__].  The two callbacks are always the methods
    [_on_start] and [_on_stop] of the button that loads the file; they are
    applied by [unit_step] below. *)
Definition PyCartAudio_init (w : World) (fname : string)
    : PyResult PyCartAudio :=
  i ← whathdr w fname;
  match i with
  | None =>
      Raise (PyCartError
               ("Could not load file " +:+ fname +:+
                ". Not a valid audio file."))
  | Some i =>
      wv ← from_wave_file w fname;
      Return (mk_PyCartAudio i wv fname)
  end.

(** The statements of [PyCartAudio.run], one thread per [start]. *)
Inductive unit_pc : Type :=
  | AtStartCallback   (* about to call [self.start_callback(self)] *)
  | AtPlay            (* about to call [self.wav.play()] *)
  | AtWaitDone        (* about to return from [play_obj.wait_done()] *)
  | AtStopCallback    (* about to call [self.stop_callback(self)] *)
  | UnitDone.         (* [run] has returned *)

(** ** [PyCartButton] *)

Inductive tk_state : Type := NORMAL | DISABLED.

Record PyCartButton : Type := mk_PyCartButton {
  _id : Z;
  _file : option PyCartAudio;
  _default_bg : string;
  (* the widget options the program sets *)
  text : string;
  bg : string;
  widget_state : tk_state
}.

(** What the user sees of a pad, read off its background colour. *)
Inductive visual : Type := Idle | Loaded | Playing.

Definition visual_state (b : PyCartButton) : visual :=
  if String.eqb (bg b) "red" then Playing
  else if String.eqb (bg b) "green" then Loaded
  else Idle.

(** A default background is one the program never sets itself. *)
Definition neutral_bg (c : string) : Prop := c <> "red" /\ c <> "green".

Inductive pad_event : Type :=
  | EvOnStart (u : nat)
  | EvAudioBegin (u : nat)
  | EvAudioDone (u : nat)
  | EvOnStop (u : nat).

(** A pad with the playback threads it has started, the error boxes shown,
    the exceptions that left a handler, and the history of playback events
    (newest first). *)
Record Pad : Type := mk_Pad {
  button : PyCartButton;
  units : list unit_pc;
  errors_shown : list (string * string);
  escaped : list exn;
  history : list pad_event
}.

Module PyCartButton.

(** [__init__]: the text is [str(id)], the background is the toolkit's. *)
Definition init (id : Z) (default_bg : string) : Pad :=
  mk_Pad (mk_PyCartButton id None default_bg (PyFormat.str id) default_bg
            NORMAL) [] [] [] [].

(** [self.config(...)] and the assignment of [self._file] replace the
    button and leave the rest of the pad. *)
Definition set_button (b : PyCartButton) (p : Pad) : Pad :=
  mk_Pad b (units p) (errors_shown p) (escaped p) (history p).

(** [do_load]: [self._file] is assigned only when the constructor returns;
    [except PyCartError] shows the message of the error in a box; the
    [else] branch sets the text and the colour.  Any other exception
    leaves the method. *)
Definition do_load (w : World) (fname : string) (p : Pad)
    : PyResult unit * Pad :=
  let b := button p in
  match PyCartAudio_init w fname with
  | Return a =>
      (Return (),
       set_button (mk_PyCartButton (_id b) (Some a) (_default_bg b)
                     (Path_name fname) "green" (widget_state b)) p)
  | Raise (PyCartError msg) =>
      (Return (),
       mk_Pad b (units p) (errors_shown p ++ [("Error", msg)]) (escaped p)
         (history p))
  | Raise e => (Raise e, p)
  end.

(** [PyCartAudio.start]: a new thread at the top of [run]. *)
Definition start (p : Pad) : Pad :=
  mk_Pad (button p) (units p ++ [AtStartCallback]) (errors_shown p)
    (escaped p) (history p).

(** [play]: [if self._file:] is true of every [PyCartAudio] (the class
    defines neither [__bool__] nor [__len__]).  The [print] only writes to
    the standard output and is left out. *)
Definition play (p : Pad) : Pad :=
  match _file (button p) with
  | Some _ => start p
  | None => p
  end.

(** [on_click]: nothing on a disabled button, [play] otherwise. *)
Definition on_click (p : Pad) : Pad :=
  match widget_state (button p) with
  | DISABLED => p
  | NORMAL => play p
  end.

(** [reset]: [self._file = None], then the text is the number of the pad
    and the background the default one. *)
Definition reset (p : Pad) : Pad :=
  let b := button p in
  set_button (mk_PyCartButton (_id b) None (_default_bg b)
                (PyFormat.str (_id b)) (_default_bg b) (widget_state b)) p.

(** [self.config(state=tk.DISABLED, bg="red")] *)
Definition _on_start (b : PyCartButton) : PyCartButton :=
  mk_PyCartButton (_id b) (_file b) (_default_bg b) (text b) "red" DISABLED.

(** [self.config(state=tk.NORMAL, bg="green")] *)
Definition _on_stop (b : PyCartButton) : PyCartButton :=
  mk_PyCartButton (_id b) (_file b) (_default_bg b) (text b) "green" NORMAL.

(** One statement of the playback thread [u] ([PyCartAudio.run]); a
    thread that has returned, or was never started, does nothing. *)
Definition at_unit (u : nat) (pc : unit_pc) (b : PyCartButton)
    (e : pad_event) (p : Pad) : Pad :=
  mk_Pad b (<[u := pc]> (units p)) (errors_shown p) (escaped p)
    (e :: history p).

Definition unit_step (u : nat) (p : Pad) : Pad :=
  match units p !! u with
  | Some AtStartCallback =>
      at_unit u AtPlay (_on_start (button p)) (EvOnStart u) p
  | Some AtPlay => at_unit u AtWaitDone (button p) (EvAudioBegin u) p
  | Some AtWaitDone => at_unit u AtStopCallback (button p) (EvAudioDone u) p
  | Some AtStopCallback =>
      at_unit u UnitDone (_on_stop (button p)) (EvOnStop u) p
  | Some UnitDone => p
  | None => p
  end.

(** What can happen to a pad: the four menu entries and the click, the
    loads made by [PyCart.open], and the steps of its playback threads.
    [MenuLoad] carries the answer of the file dialog. *)
Inductive action : Type :=
  | MenuLoad (fname : string)
  | DoLoad (fname : string)
  | MenuPlay
  | Click
  | MenuLoop
  | MenuReset
  | UnitStep (u : nat).

(** An exception that leaves a handler is reported by the toolkit and the
    main loop goes on. *)
Definition handler (r : PyResult unit * Pad) : Pad :=
  match r.1 with
  | Return _ => r.2
  | Raise e =>
      mk_Pad (button r.2) (units r.2) (errors_shown r.2) (escaped r.2 ++ [e])
        (history r.2)
  end.

(** [load], [fname] being the answer of [askopenfilename]. *)
Definition load (w : World) (fname : string) (p : Pad)
    : PyResult unit * Pad :=
  if String.eqb fname "" then (Return (), p) else do_load w fname p.

Definition step (w : World) (a : action) (p : Pad) : Pad :=
  match a with
  | MenuLoad fname => handler (load w fname p)
  | DoLoad fname => handler (do_load w fname p)
  | MenuPlay => play p
  | Click => on_click p
  | MenuLoop => p
  | MenuReset => reset p
  | UnitStep u => unit_step u p
  end.

Definition run (w : World) (sched : list action) (p : Pad) : Pad :=
  foldl (fun p a => step w a p) p sched.



Definition is_done (pc : unit_pc) : bool :=
  match pc with
  | UnitDone => true
  | _ => false
  end.

(** No playback thread of the pad is alive. *)
Definition quiet (p : Pad) : bool := forallb is_done (units p).

(** Every [MenuReset] of the schedule finds the pad [quiet]. *)
Fixpoint resets_when_quiet (w : World) (sched : list action) (p : Pad)
    : bool :=
  match sched with
  | [] => true
  | a :: sched =>
      match a with
      | MenuReset => quiet p
      | _ => true
      end && resets_when_quiet w sched (step w a p)
  end.

End PyCartButton.

(** ** [bytes.decode(encoding)]

    The codec registry lower-cases the name and asks
    [encodings.search_function], which normalises it
    ([encodings.normalize_encoding]): every run of characters that are
    neither alphanumeric nor ['.'] becomes one ['_'], and none is kept at
    the start.  The normalised name is looked up in the alias table and
    then as a module of the [encodings] package.  Only the UTF-8 codec
    and its aliases are listed here. *)

Module Codecs.

Definition is_alnum (c : ascii) : bool :=
  let n := N_of_ascii c in
  ((48 <=? n) && (n <=? 57) || (65 <=? n) && (n <=? 90) ||
   (97 <=? n) && (n <=? 122))%N.

Definition lower (c : ascii) : ascii :=
  let n := N_of_ascii c in
  if ((65 <=? n) && (n <=? 90))%N then ascii_of_N (n + 32) else c.

Fixpoint lower_string (s : string) : string :=
  match s with
  | EmptyString => EmptyString
  | String c s => String (lower c) (lower_string s)
  end.

(** The loop of [normalize_encoding]; names are ASCII. *)
Fixpoint normalize_loop (encoding : string) (chars : string) (punct : bool)
    : string :=
  match encoding with
  | EmptyString => chars
  | String c rest =>
      if is_alnum c || Ascii.eqb c "."%char then
        let chars := if punct && negb (String.eqb chars "")
                     then chars +:+ "_" else chars in
        normalize_loop rest (chars +:+ String c "") false
      else normalize_loop rest chars true
  end.

Definition normalize_encoding (encoding : string) : string :=
  normalize_loop encoding "" false.

Inductive codec : Type := utf_8.

(** [encodings.aliases.aliases], the entries for [utf_8]. *)
Definition aliases (name : string) : option string :=
  if bool_decide
       (name ∈ ["cp65001"; "u8"; "utf"; "utf8"; "utf8_ucs2"; "utf8_ucs4"])
  then Some "utf_8" else None.

(** [import encodings.<modname>] *)
Definition codec_module (modname : string) : option codec :=
  if String.eqb modname "utf_8" then Some utf_8 else None.

Definition search_function (encoding : string) : option codec :=
  let norm_encoding := normalize_encoding encoding in
  match aliases norm_encoding with
  | Some aliased_encoding =>
      match codec_module aliased_encoding with
      | Some c => Some c
      | None => codec_module norm_encoding
      end
  | None => codec_module norm_encoding
  end.

Definition lookup (encoding : string) : option codec :=
  search_function (lower_string encoding).

(** Strict UTF-8: shortest forms only, no surrogates, at most U+10FFFF. *)
Definition continuation (b : N) : bool := ((128 <=? b) && (b <=? 191))%N.

Definition between (lo b hi : N) : bool := ((lo <=? b) && (b <=? hi))%N.

Fixpoint utf_8_decode (bs : list N) : option pystr :=
  match bs with
  | [] => Some []
  | b0 :: r0 =>
      if (b0 <? 128)%N then cons b0 <$> utf_8_decode r0
      else if between 194 b0 223 then
        match r0 with
        | b1 :: r1 =>
            if continuation b1
            then cons ((b0 - 192) * 64 + (b1 - 128))%N <$> utf_8_decode r1
            else None
        | _ => None
        end
      else if between 224 b0 239 then
        match r0 with
        | b1 :: b2 :: r2 =>
            if between (if (b0 =? 224)%N then 160 else 128) b1
                 (if (b0 =? 237)%N then 159 else 191) && continuation b2
            then cons ((b0 - 224) * 4096 + (b1 - 128) * 64 + (b2 - 128))%N
                   <$> utf_8_decode r2
            else None
        | _ => None
        end
      else if between 240 b0 244 then
        match r0 with
        | b1 :: b2 :: b3 :: r3 =>
            if between (if (b0 =? 240)%N then 144 else 128) b1
                 (if (b0 =? 244)%N then 143 else 191) &&
               continuation b2 && continuation b3
            then cons ((b0 - 240) * 262144 + (b1 - 128) * 4096 +
                       (b2 - 128) * 64 + (b3 - 128))%N
                   <$> utf_8_decode r3
            else None
        | _ => None
        end
      else None
  end.

Definition decode (encoding : string) (content : bytes) : PyResult pystr :=
  match lookup encoding with
  | None => Raise (LookupError encoding)
  | Some utf_8 =>
      match utf_8_decode (Byte.to_N <$> content) with
      | Some s => Return s
      | None => Raise UnicodeDecodeError
      end
  end.

End Codecs.

(** ** [load_conf] *)

Definition load_conf (w : World) (filename : string)
    : PyResult (list (pystr * toml_value)) :=
  content ← open_rb w filename;
  s ← Codecs.decode "utf=8" content;
  toml_loads w s.

(** ** Two decimal digits

    The [HH], [MM] and [SS] of the clock strings, written without the
    formatting functions: the character of the tens, then that of the
    units. *)

Definition digit_char (d : Z) : ascii := ascii_of_N (48 + Z.to_N d).

Definition two_digits (z : Z) : string :=
  String (digit_char (z / 10)) (String (digit_char (z mod 10)) "").

(** ** Invariants and measures used in the proofs *)

(** What holds of the clock in every state it can reach. *)
Record clock_inv {Callback : Type} (s : Clock.state Callback) : Prop := {
  inv_flag : Clock.stopper s <> Clock.StopNotCalled ->
             Clock.enabled s = false;
  inv_join : Clock.stopper s = Clock.StopReturned ->
             Clock.runner s = Clock.RunReturned;
  inv_dead : Clock.EvStopReturned ∈ Clock.log s ->
             Clock.runner s = Clock.RunReturned;
  inv_after : forall newer older,
      Clock.log s = (newer ++ Clock.EvStopReturned :: older)%list ->
      Clock.ticks newer = 0%nat
}.

(** The ticks the thread can still make once the flag is cleared. *)
Definition pending (pc : Clock.run_pc) : nat :=
  match pc with
  | Clock.InBody => 1
  | _ => 0
  end.

(** Statements left to the thread before [run] returns, the flag being
    cleared. *)
Definition statements_left (pc : Clock.run_pc) : nat :=
  match pc with
  | Clock.AtWhile => 1
  | Clock.InBody => 3
  | Clock.AtSleep => 2
  | Clock.RunReturned => 0
  end.




(** A pad without a sample has its default background and no live thread;
    a pad with a sample is green or red. *)
Definition pad_inv (p : Pad) : Prop :=
  neutral_bg (_default_bg (button p)) /\
  match _file (button p) with
  | None =>
      bg (button p) = _default_bg (button p) /\ PyCartButton.quiet p = true
  | Some _ => bg (button p) = "green" \/ bg (button p) = "red"
  end.

Fixpoint no_slash (s : string) : bool :=
  match s with
  | EmptyString => true
  | String c s => negb (Ascii.eqb c "/"%char) && no_slash s
  end.

(** ** An example world

    One audio file and one empty configuration file.  The stand-ins for
    the libraries accept a content that starts with [RIFF] as audio and
    the empty document as a configuration, and nothing else. *)

Definition is_riff (content : bytes) : bool :=
  bool_decide (Byte.to_N <$> take 4 content = [82; 73; 70; 70]%N).

Definition example_world : World :=
  mk_World
    {[ "/home/dj/kick.wav" := String.list_byte_of_string "RIFF....WAVEfmt ";
       "/home/dj/notes.txt" := String.list_byte_of_string "not audio";
       "/home/dj/empty.toml" := [] ]}
    (fun content =>
       if is_riff content then Some (mk_SndHeaders "wav" 44100 2 (-1) 16)
       else None)
    (fun content =>
       if is_riff content then Return (mk_WaveObject content 2 2 44100)
       else Raise WaveError)
    (fun s =>
       match s with
       | [] => Return []
       | _ => Raise TomlDecodeError
       end).

(** ** [PyCart]: the nine pads, the keyboard and [open] *)

Module PyCart.

(** [create_widgets]: three rows of three buttons, numbered from 1 in the
    order in which they are created and appended to [self.pads]. *)
Definition create_widgets (default_bg : string) : list Pad :=
  (foldl (fun acc (_ : nat * nat) =>
            (acc.1 + 1, (acc.2 ++ [PyCartButton.init acc.1 default_bg])%list))
     (1, []) (x ← seq 0 3; y ← seq 0 3; [(x, y)])).2.





Inductive open_error : Type :=
  | OpenIndexError (idx : nat)   (* [self.pads[idx]] raised *)
  | OpenRaised (e : exn).        (* [do_load] raised *)

(** The loop of [open], [for idx, pad in enumerate(conf["pads"])], given
    the values [pad["file"]] of the entries in order: the first exception
    ends the loop. *)
Fixpoint open_pads (w : World) (idx : nat) (fnames : list string)
    (pads : list Pad) : option open_error * list Pad :=
  match fnames with
  | [] => (None, pads)
  | fname :: fnames =>
      match pads !! idx with
      | None => (Some (OpenIndexError idx), pads)
      | Some p =>
          let r := PyCartButton.do_load w fname p in
          match r.1 with
          | Return _ => open_pads w (S idx) fnames (<[idx := r.2]> pads)
          | Raise e => (Some (OpenRaised e), <[idx := r.2]> pads)
          end
      end
  end.

End PyCart.

(** ** More invariants and measures *)

(** The text of a pad names the sample it holds, or is its number. *)
Definition label_inv (p : Pad) : Prop :=
  text (button p) =
    match _file (button p) with
    | Some a => Path_name (file a)
    | None => PyFormat.str (_id (button p))
    end.

(** A playback thread between its [on_start] and its [on_stop]. *)
Definition is_playing (pc : unit_pc) : bool :=
  match pc with
  | AtPlay | AtWaitDone | AtStopCallback => true
  | AtStartCallback | UnitDone => false
  end.

(** A disabled pad has a thread that has called [on_start] and not yet
    [on_stop]. *)
Definition disabled_inv (p : Pad) : Prop :=
  widget_state (button p) = DISABLED ->
  exists u pc, units p !! u = Some pc /\ is_playing pc = true.





(** A byte that occurs in no UTF-8 text. *)
Definition never_in_utf_8 (b : N) : Prop :=
  (b = 192 \/ b = 193 \/ 245 <= b)%N.




(** A world with one file that [sndhdr] recognises and [wave] cannot
    read: an audio file that is not a wave file. *)
Definition aiff_world : World :=
  mk_World
    {[ "/home/dj/clap.aiff" := String.list_byte_of_string "FORM....AIFF" ]}
    (fun content =>
       if bool_decide (Byte.to_N <$> take 4 content = [70; 79; 82; 77]%N)
       then Some (mk_SndHeaders "aiff" 44100 2 100 16) else None)
    (fun _ => Raise WaveError)
    (fun _ => Raise TomlDecodeError).

(** * Properties *)

(** ** Formatting *)

Lemma format_02_below_100 (z : Z) :
  0 <= z < 100 -> PyFormat.format_02 z = two_digits z.
Proof.
  intros Hz.
  assert (Hall : forallb (fun n => String.eqb
                    (PyFormat.format_02 (Z.of_nat n))
                    (two_digits (Z.of_nat n))) (seq 0 100) = true)
    by (vm_compute; reflexivity).
  rewrite forallb_forall in Hall.
  specialize (Hall (Z.to_nat z)).
  rewrite Z2Nat.id in Hall by lia.
  apply String.eqb_eq, Hall, in_seq. lia.
Qed.

Lemma seconds_left_split (m s : Z) :
  0 <= m < 60 -> 0 <= s < 60 ->
  (60 + (60 - s) / 60) - m - 1 = (3600 - (60 * m + s)) / 60 /\
  (60 - s) mod 60 = (3600 - (60 * m + s)) mod 60.
Proof.
  intros Hm Hs.
  destruct (Z.eq_dec s 0) as [-> | Hne].
  - replace (3600 - (60 * m + 0)) with ((60 - m) * 60) by lia.
    rewrite Z.div_mul, Z.mod_mul by lia.
    change ((60 - 0) / 60) with 1. change ((60 - 0) mod 60) with 0. lia.
  - replace (3600 - (60 * m + s)) with ((60 - s) + (59 - m) * 60) by lia.
    rewrite Z.div_add, Z.mod_add by lia.
    rewrite (Z.div_small (60 - s)), (Z.mod_small (60 - s)) by lia. lia.
Qed.

Example strftime_14_59_47 :
  Clock.current_time (mk_datetime 14 59 47) = "14:59:47".
Proof. reflexivity. Qed.

Example format_02_examples :
  PyFormat.format_02 7 = "07" /\ PyFormat.format_02 123 = "123" /\
  PyFormat.format_02 (-5) = "-5" /\ PyFormat.format_02 0 = "00".
Proof. repeat split; reflexivity. Qed.

(** ** The strings of a tick (C1) *)

(** C1, as the claim states it, fails: one minute before the hour, at
    14:59:00, the seconds are 00 and the countdown reads [-01:00], not
    [-00:00]; and at 14:30:47 it reads [-29:13], although the next minute
    is 13 seconds away. *)
Lemma remaining_not_zero_at_minute_boundary :
  datetime_ok (mk_datetime 14 59 0) /\
  second (mk_datetime 14 59 0) = 0 /\
  Clock.remaining (mk_datetime 14 59 0) = "-01:00" /\
  Clock.remaining (mk_datetime 14 59 0) <> "-00:00" /\
  Clock.remaining (mk_datetime 14 30 47) = "-29:13".
Proof.
  repeat split; try (unfold datetime_ok; simpl; lia); discriminate.
Qed.

(** C1 (amended): every observer called in a tick receives the current time
    as [HH:MM:SS] and a countdown [-MM:SS] to the next whole hour: [MM] and
    [SS] are the minutes and seconds of [3600 - (60 * minute + second)]
    seconds.  At 14:59:47 the strings are [14:59:47] and [-00:13]; when
    the seconds are 00 the countdown is [-MM:00] with [MM = 60 - minute],
    which is never [-00:00]. *)
Theorem tick_counts_down_to_the_hour
    {Callback : Type} (now : datetime) (cbs : gmap string Callback) :
  datetime_ok now ->
  let togo := 3600 - (60 * minute now + second now) in
  (forall c, c ∈ Clock.tick now cbs ->
     Clock.call_current_time c =
       two_digits (hour now) +:+ ":" +:+ two_digits (minute now) +:+ ":" +:+
       two_digits (second now) /\
     Clock.call_remaining c =
       "-" +:+ two_digits (togo / 60) +:+ ":" +:+ two_digits (togo mod 60)) /\
  (second now = 0 ->
     Clock.remaining now = "-" +:+ two_digits (60 - minute now) +:+ ":00" /\
     Clock.remaining now <> "-00:00") /\
  Clock.current_time (mk_datetime 14 59 47) = "14:59:47" /\
  Clock.remaining (mk_datetime 14 59 47) = "-00:13".
Proof.
  intros (Hh & Hm & Hs) togo.
  destruct (seconds_left_split (minute now) (second now) Hm Hs) as [Emin Esec].
  assert (Htogo : 0 < togo <= 3600) by (unfold togo; lia).
  assert (Hrem : Clock.remaining now =
            "-" +:+ two_digits (togo / 60) +:+ ":" +:+ two_digits (togo mod 60)).
  { unfold Clock.remaining, Clock.min_remaining, Clock.sec_remaining.
    rewrite Emin, Esec. fold togo.
    rewrite !format_02_below_100; [reflexivity | |].
    - pose proof (Z.mod_pos_bound togo 60). lia.
    - split; [apply Z.div_pos; lia |].
      apply Z.div_lt_upper_bound; lia. }
  split; [| split; [| split; reflexivity]].
  - intros c Hc. unfold Clock.tick in Hc.
    apply list_elem_of_fmap in Hc as (kc & -> & _). simpl. split; [| exact Hrem].
    unfold Clock.current_time, strftime_HMS.
    rewrite !format_02_below_100 by lia. reflexivity.
  - intros Hs0. rewrite Hrem.
    assert (El : togo = (60 - minute now) * 60) by (unfold togo; lia).
    rewrite El, Z.div_mul, Z.mod_mul by lia.
    split; [reflexivity |].
    intros Heq. injection Heq as H1 H2.
    assert (Hd : forallb (fun n => negb (String.eqb
                     (two_digits (Z.of_nat n)) "00")) (seq 1 60) = true)
      by (vm_compute; reflexivity).
    rewrite forallb_forall in Hd.
    specialize (Hd (Z.to_nat (60 - minute now))).
    rewrite Z2Nat.id in Hd by lia.
    assert (Hin : In (Z.to_nat (60 - minute now)) (seq 1 60))
      by (apply in_seq; lia).
    apply Hd in Hin. apply negb_true_iff, String.eqb_neq in Hin.
    apply Hin. unfold two_digits. congruence.
Qed.

Lemma tick_counts_down_to_the_hour_witness :
  datetime_ok (mk_datetime 14 59 0) /\
  Clock.remaining (mk_datetime 14 59 0) =
    "-" +:+ two_digits (60 - 59) +:+ ":00".
Proof.
  assert (Hok : datetime_ok (mk_datetime 14 59 0))
    by (unfold datetime_ok; simpl; lia).
  split; [exact Hok |].
  destruct (tick_counts_down_to_the_hour (Callback := unit)
              (mk_datetime 14 59 0) ∅ Hok) as (_ & Hzero & _).
  exact (proj1 (Hzero eq_refl)).
Defined.

(** ** The observer registry (C4, C6) *)

Section Registry.
Context {Callback : Type}.
Implicit Types (cbs : gmap string Callback) (l : list (string * Callback)).

Lemma filter_calls_fmap (t r name : string) l :
  filter (fun c => Clock.call_key c = name)
    ((fun kc => Clock.mk_call kc.1 kc.2 t r) <$> l) =
  (fun kc => Clock.mk_call kc.1 kc.2 t r) <$> filter (fun kc => kc.1 = name) l.
Proof.
  induction l as [| [k cb] l IH]; [reflexivity |].
  rewrite fmap_cons, !filter_cons. simpl.
  destruct (decide (k = name)); rewrite IH; reflexivity.
Qed.

Lemma filter_key_absent (name : string) l :
  name ∉ l.*1 -> filter (fun kc => kc.1 = name) l = [].
Proof.
  induction l as [| [k cb] l IH]; [reflexivity |].
  rewrite fmap_cons, not_elem_of_cons, filter_cons. simpl.
  intros [Hne Hnot]. destruct (decide (k = name)); [congruence | auto].
Qed.

Lemma filter_key_unique (name : string) (cb : Callback) l :
  NoDup l.*1 -> (name, cb) ∈ l ->
  filter (fun kc => kc.1 = name) l = [(name, cb)].
Proof.
  induction l as [| [k c] l IH]; intros Hnd Hin.
  - inversion Hin.
  - rewrite fmap_cons in Hnd. apply NoDup_cons in Hnd as [Hk Hnd].
    rewrite filter_cons. simpl.
    apply elem_of_cons in Hin as [Heq | Hin].
    + injection Heq as <- <-.
      rewrite decide_True by reflexivity.
      rewrite filter_key_absent by exact Hk. reflexivity.
    + destruct (decide (k = name)) as [-> | Hne]; [| auto].
      exfalso. apply Hk. apply list_elem_of_fmap. exists (name, cb). auto.
Qed.

End Registry.

(** C4: [remove_callback] with a key that is not registered raises (the
    [KeyError] of [del], which the specification calls UnknownObserver) and
    returns no registry; with a registered key it returns the registry
    without that key and with every other registration as it was. *)
Theorem remove_callback_unknown_raises
    {Callback : Type} (name : string) (cbs : gmap string Callback) :
  (cbs !! name = None ->
     Clock.remove_callback name cbs = Raise (KeyError name)) /\
  (forall cb, cbs !! name = Some cb ->
     exists cbs', Clock.remove_callback name cbs = Return cbs' /\
       cbs' !! name = None /\
       (forall other, other <> name -> cbs' !! other = cbs !! other) /\
       size cbs = S (size cbs')).
Proof.
  unfold Clock.remove_callback. split.
  - intros ->. reflexivity.
  - intros cb Hcb. rewrite Hcb. exists (delete name cbs).
    split; [reflexivity |]. split; [apply lookup_delete_eq |].
    split; [intros other Hne; apply lookup_delete_ne; congruence |].
    rewrite <- (insert_delete_id cbs name cb) at 1 by exact Hcb.
    apply map_size_insert_None, lookup_delete_eq.
Qed.

Lemma remove_callback_unknown_raises_witness :
  (∅ : gmap string nat) !! "clock" = None /\
  Clock.remove_callback "clock" (∅ : gmap string nat) =
    Raise (KeyError "clock").
Proof.
  split; [reflexivity |].
  apply (remove_callback_unknown_raises "clock" (∅ : gmap string nat)).
  reflexivity.
Defined.

(** C6: in one tick every registered observer is called exactly once, all
    with the same pair of strings, computed from the one reading of the
    time; nothing else is called.  With two observers under different keys
    a tick calls exactly these two; once the first is removed, a later
    tick calls only the second. *)
Theorem tick_calls_each_observer_once
    {Callback : Type} (now : datetime) (cbs : gmap string Callback) :
  (forall name cb, cbs !! name = Some cb ->
     filter (fun c => Clock.call_key c = name) (Clock.tick now cbs) =
       [Clock.mk_call name cb (Clock.current_time now)
          (Clock.remaining now)]) /\
  (forall name, cbs !! name = None ->
     filter (fun c => Clock.call_key c = name) (Clock.tick now cbs) = []) /\
  length (Clock.tick now cbs) = size cbs /\
  (forall name1 cb1 name2 cb2, name1 <> name2 ->
     let both :=
       Clock.add_callback name2 cb2
         (Clock.add_callback name1 cb1 (∅ : gmap string Callback)) in
     Clock.tick now both ≡ₚ
       [Clock.mk_call name1 cb1 (Clock.current_time now)
          (Clock.remaining now);
        Clock.mk_call name2 cb2 (Clock.current_time now)
          (Clock.remaining now)] /\
     exists rest, Clock.remove_callback name1 both = Return rest /\
       forall later, Clock.tick later rest =
         [Clock.mk_call name2 cb2 (Clock.current_time later)
            (Clock.remaining later)]).
Proof.
  split; [| split; [| split]].
  - intros name cb Hcb. unfold Clock.tick.
    rewrite filter_calls_fmap.
    rewrite (filter_key_unique name cb); [reflexivity | |].
    + apply NoDup_fst_map_to_list.
    + apply elem_of_map_to_list, Hcb.
  - intros name Hnone. unfold Clock.tick.
    rewrite filter_calls_fmap, filter_key_absent; [reflexivity |].
    intros Hin. apply list_elem_of_fmap in Hin as ([k cb] & -> & Hin).
    apply elem_of_map_to_list in Hin. simpl in Hnone. congruence.
  - unfold Clock.tick. rewrite length_fmap. apply length_map_to_list.
  - intros name1 cb1 name2 cb2 Hne both. split.
    + unfold Clock.tick, both, Clock.add_callback.
      rewrite map_to_list_insert.
      2:{ rewrite lookup_insert_ne by congruence. apply lookup_empty. }
      rewrite insert_empty, map_to_list_singleton. simpl.
      apply perm_swap.
    + exists (Clock.add_callback name2 cb2 ∅). split.
      * unfold Clock.remove_callback, both, Clock.add_callback.
        rewrite lookup_insert_ne, lookup_insert_eq by congruence.
        rewrite delete_insert_ne, delete_insert_eq, delete_empty
          by congruence.
        reflexivity.
      * intros later. unfold Clock.tick, Clock.add_callback.
        rewrite insert_empty, map_to_list_singleton. reflexivity.
Qed.

Lemma tick_calls_each_observer_once_witness :
  ({[ "mini" := 7%nat ]} : gmap string nat) !! "mini" = Some 7%nat /\
  filter (fun c => Clock.call_key c = "mini")
    (Clock.tick (mk_datetime 14 59 47) {[ "mini" := 7%nat ]}) =
  [Clock.mk_call "mini" 7%nat "14:59:47" "-00:13"].
Proof.
  split; [reflexivity |].
  apply (tick_calls_each_observer_once (mk_datetime 14 59 47)
           ({[ "mini" := 7%nat ]} : gmap string nat)).
  reflexivity.
Defined.

(** ** Stopping the clock (C7) *)

Section ClockThread.
Context {Callback : Type}.
Implicit Types (s : Clock.state Callback) (a : Clock.action Callback).
Implicit Types (sched : list (Clock.action Callback)).

Lemma ticks_cons (e : Clock.event Callback) l :
  Clock.ticks (e :: l) =
    ((if Clock.is_tick e then 1 else 0) + Clock.ticks l)%nat.
Proof.
  unfold Clock.ticks. rewrite filter_cons.
  destruct e; simpl; reflexivity.
Qed.

Lemma exec_app sched1 sched2 s :
  Clock.exec (sched1 ++ sched2)%list s =
    match Clock.exec sched1 s with
    | Some s' => Clock.exec sched2 s'
    | None => None
    end.
Proof.
  revert s. induction sched1 as [| a sched1 IH]; intros s; [reflexivity |].
  simpl. destruct (Clock.step a s); [apply IH | reflexivity].
Qed.

Lemma exec_snoc sched a s s' :
  Clock.exec (sched ++ [a])%list s = Some s' <->
  exists s1, Clock.exec sched s = Some s1 /\ Clock.step a s1 = Some s'.
Proof.
  rewrite exec_app. destruct (Clock.exec sched s) as [s1 |]; simpl.
  - destruct (Clock.step a s1) eqn:E; split.
    + intros [= <-]. eauto.
    + intros (? & [= <-] & H). congruence.
    + discriminate.
    + intros (? & [= <-] & H). congruence.
  - split; [discriminate | intros (? & ? & _); discriminate].
Qed.

Lemma clock_inv_init : clock_inv (Clock.init (Callback := Callback)).
Proof.
  split; simpl; try congruence.
  - intros H. inversion H.
  - intros [| ? ?] ? H; discriminate.
Qed.

Lemma log_after_cons (e : Clock.event Callback) l newer older :
  e :: l = (newer ++ Clock.EvStopReturned :: older)%list ->
  (newer = [] /\ e = Clock.EvStopReturned) \/
  (exists newer', newer = e :: newer' /\
     l = (newer' ++ Clock.EvStopReturned :: older)%list).
Proof.
  destruct newer as [| e' newer']; simpl; intros [= -> ->]; eauto.
Qed.

Lemma stop_event_in_log (newer older : list (Clock.event Callback)) :
  Clock.EvStopReturned ∈ (newer ++ Clock.EvStopReturned :: older)%list.
Proof. apply elem_of_app. right. apply elem_of_cons. left. reflexivity. Qed.

Lemma clock_inv_run_step now s s' :
  clock_inv s -> Clock.run_step now s = Some s' -> clock_inv s'.
Proof.
  intros [Hflag Hjoin Hdead Hafter] Hstep. unfold Clock.run_step in Hstep.
  assert (Halive : Clock.runner s <> Clock.RunReturned)
    by (intros Hr; rewrite Hr in Hstep; discriminate).
  assert (Hno : Clock.EvStopReturned ∉ Clock.log s) by auto.
  assert (Hno' : Clock.EvStopReturned ∉ Clock.log s').
  { destruct (Clock.runner s); try discriminate;
      injection Hstep as <-; simpl; try exact Hno.
    intros H. apply elem_of_cons in H as [H | H]; [discriminate | auto]. }
  assert (Hkeep : Clock.enabled s' = Clock.enabled s /\
                  Clock.stopper s' = Clock.stopper s)
    by (destruct (Clock.runner s); try discriminate;
        injection Hstep as <-; simpl; auto).
  destruct Hkeep as [Hen Hst].
  split.
  - rewrite Hen, Hst. exact Hflag.
  - rewrite Hst. intros H. apply Hjoin in H. contradiction.
  - intros H. contradiction.
  - intros newer older H. exfalso. apply Hno'. rewrite H.
    apply stop_event_in_log.
Qed.

Lemma clock_inv_stop_step s s' :
  clock_inv s -> Clock.stop_step s = Some s' -> clock_inv s'.
Proof.
  intros [Hflag Hjoin Hdead Hafter] Hstep. unfold Clock.stop_step in Hstep.
  destruct (Clock.stopper s) eqn:Hs; try discriminate.
  - injection Hstep as <-. split; simpl; auto; congruence.
  - destruct (Clock.runner s) eqn:Hr; try discriminate.
    injection Hstep as <-. split; simpl.
    + intros _. apply Hflag. congruence.
    + intros _. reflexivity.
    + intros _. reflexivity.
    + intros newer older H.
      apply log_after_cons in H as [[-> _] | (newer' & -> & H)];
        [reflexivity |].
      rewrite ticks_cons. simpl. eauto.
Qed.

Lemma clock_inv_registry s cbs :
  clock_inv s ->
  clock_inv (Clock.mk_state (Clock.enabled s) cbs (Clock.runner s)
               (Clock.stopper s) (Clock.log s)).
Proof. intros [Hflag Hjoin Hdead Hafter]. split; simpl; auto. Qed.

Lemma clock_inv_step a s s' :
  clock_inv s -> Clock.step a s = Some s' -> clock_inv s'.
Proof.
  intros Hinv Hstep.
  destruct a as [now | | name cb | name]; simpl in Hstep.
  - eapply clock_inv_run_step; eassumption.
  - eapply clock_inv_stop_step; eassumption.
  - destruct (Clock.stopper s) eqn:Hs; try discriminate;
      injection Hstep as <-; rewrite <- Hs; apply clock_inv_registry, Hinv.
  - destruct (Clock.stopper s) eqn:Hs; try discriminate;
      destruct (Clock.remove_callback name (Clock.callbacks s));
      injection Hstep as <-; try exact Hinv;
      rewrite <- Hs; apply clock_inv_registry, Hinv.
Qed.

Lemma clock_inv_exec sched s s' :
  clock_inv s -> Clock.exec sched s = Some s' -> clock_inv s'.
Proof.
  revert s. induction sched as [| a sched IH]; simpl; intros s Hinv Hex.
  - injection Hex as <-. exact Hinv.
  - destruct (Clock.step a s) as [s1 |] eqn:Hstep; [| discriminate].
    eapply IH; [eapply clock_inv_step |]; eassumption.
Qed.

Lemma disabled_step a s s' :
  Clock.enabled s = false -> Clock.step a s = Some s' ->
  Clock.enabled s' = false /\
  (Clock.ticks (Clock.log s') + pending (Clock.runner s') =
   Clock.ticks (Clock.log s) + pending (Clock.runner s))%nat.
Proof.
  intros Hoff Hstep.
  destruct a as [now | | name cb | name]; simpl in Hstep.
  - unfold Clock.run_step in Hstep.
    destruct (Clock.runner s) eqn:Hr; try discriminate;
      injection Hstep as <-; simpl; rewrite ?Hoff, ?ticks_cons; simpl;
      split; auto; lia.
  - unfold Clock.stop_step in Hstep.
    destruct (Clock.stopper s); try discriminate.
    + injection Hstep as <-. simpl. auto.
    + destruct (Clock.runner s) eqn:Hr; try discriminate.
      injection Hstep as <-. simpl. rewrite ticks_cons. simpl. auto.
  - destruct (Clock.stopper s); try discriminate;
      injection Hstep as <-; simpl; auto.
  - destruct (Clock.stopper s); try discriminate;
      destruct (Clock.remove_callback name (Clock.callbacks s));
      injection Hstep as <-; simpl; auto.
Qed.

Lemma disabled_exec sched s s' :
  Clock.enabled s = false -> Clock.exec sched s = Some s' ->
  (Clock.ticks (Clock.log s') + pending (Clock.runner s') =
   Clock.ticks (Clock.log s) + pending (Clock.runner s))%nat.
Proof.
  revert s. induction sched as [| a sched IH]; simpl; intros s Hoff Hex.
  - injection Hex as <-. reflexivity.
  - destruct (Clock.step a s) as [s1 |] eqn:Hstep; [| discriminate].
    destruct (disabled_step _ _ _ Hoff Hstep) as [Hoff1 Heq].
    rewrite <- Heq. apply IH; assumption.
Qed.

Lemma disabled_thread_exits (now : datetime) s :
  Clock.enabled s = false -> Clock.stopper s = Clock.AtJoin ->
  exists s',
    Clock.exec (replicate (statements_left (Clock.runner s))
                  (Clock.RunStep now) ++ [Clock.StopStep])%list s = Some s' /\
    Clock.stopper s' = Clock.StopReturned.
Proof.
  destruct s as [en cbs pc st lg]. simpl. intros -> ->.
  destruct pc; simpl; eexists; (split; [reflexivity |]); reflexivity.
Qed.

End ClockThread.

(** C7: [stop] returns only when [run] has returned: while the thread is
    alive its caller stays in [join]; a thread whose [run] has returned
    takes no step, so nothing is called back after [stop] has returned.
    Once [stop] has cleared the flag the loop makes at most the tick it is
    in, and exits within three statements, after which [join] returns. *)
Theorem stop_joins_the_clock_thread
    {Callback : Type} (sched : list (Clock.action Callback))
    (s : Clock.state Callback) :
  Clock.exec sched Clock.init = Some s ->
  (Clock.stopper s = Clock.StopReturned ->
     Clock.runner s = Clock.RunReturned /\
     forall now, Clock.step (Clock.RunStep now) s = None) /\
  (Clock.stopper s = Clock.AtJoin ->
     Clock.runner s <> Clock.RunReturned ->
     Clock.step Clock.StopStep s = None) /\
  (forall newer older,
     Clock.log s = (newer ++ Clock.EvStopReturned :: older)%list ->
     Clock.ticks newer = 0%nat) /\
  (Clock.stopper s = Clock.AtJoin ->
     (forall more s', Clock.exec more s = Some s' ->
        (Clock.ticks (Clock.log s') <= Clock.ticks (Clock.log s) + 1)%nat) /\
     (forall now, exists n s',
        (n <= 3)%nat /\
        Clock.exec (replicate n (Clock.RunStep now) ++ [Clock.StopStep])%list s
          = Some s' /\
        Clock.stopper s' = Clock.StopReturned)).
Proof.
  intros Hex.
  pose proof (clock_inv_exec _ _ _ clock_inv_init Hex)
    as [Hflag Hjoin Hdead Hafter].
  split; [| split; [| split]].
  - intros Hs. split; [auto |].
    intros now. simpl. unfold Clock.run_step. rewrite Hjoin; auto.
  - intros Hs Hr. simpl. unfold Clock.stop_step. rewrite Hs.
    destruct (Clock.runner s); congruence.
  - exact Hafter.
  - intros Hs.
    assert (Hoff : Clock.enabled s = false) by (apply Hflag; congruence).
    split.
    + intros more s' Hmore.
      pose proof (disabled_exec _ _ _ Hoff Hmore) as Heq.
      assert (pending (Clock.runner s) <= 1)%nat
        by (destruct (Clock.runner s); simpl; lia).
      lia.
    + intros now.
      destruct (disabled_thread_exits now s Hoff Hs) as (s' & Hrun & Hret).
      exists (statements_left (Clock.runner s)), s'.
      split; [destruct (Clock.runner s); simpl; lia | auto].
Qed.

Lemma stop_joins_the_clock_thread_witness :
  let sched : list (Clock.action nat) :=
    [Clock.AddCallback "mini" 7%nat; Clock.RunStep (mk_datetime 14 59 47);
     Clock.RunStep (mk_datetime 14 59 47); Clock.StopStep;
     Clock.RunStep (mk_datetime 14 59 47); Clock.RunStep (mk_datetime 14 59 47);
     Clock.StopStep] in
  exists s, Clock.exec sched Clock.init = Some s /\
    Clock.stopper s = Clock.StopReturned /\
    Clock.runner s = Clock.RunReturned.
Proof.
  intros sched.
  destruct (Clock.exec sched Clock.init) as [s |] eqn:Hex;
    [| vm_compute in Hex; discriminate].
  exists s. split; [reflexivity |].
  assert (Hs : Clock.stopper s = Clock.StopReturned)
    by (vm_compute in Hex; injection Hex as <-; reflexivity).
  split; [exact Hs |].
  exact (proj1 (proj1 (stop_joins_the_clock_thread sched s Hex) Hs)).
Defined.

(** ** The name of a path *)

Lemma append_cons (x : ascii) (a b : string) :
  String x a +:+ b = String x (a +:+ b).
Proof. reflexivity. Qed.

Lemma append_empty_r (a : string) : a +:+ "" = a.
Proof.
  induction a as [| x a IH]; [reflexivity |].
  rewrite append_cons, IH. reflexivity.
Qed.

Lemma append_assoc (a b c : string) : (a +:+ b) +:+ c = a +:+ (b +:+ c).
Proof.
  induction a as [| x a IH]; [reflexivity |].
  rewrite !append_cons, IH. reflexivity.
Qed.

Lemma split_slash_no_slash (name cur : string) :
  no_slash name = true -> split_slash name cur = [cur +:+ name].
Proof.
  revert cur. induction name as [| c name IH]; simpl; intros cur Hno.
  - rewrite append_empty_r. reflexivity.
  - apply andb_true_iff in Hno as [Hc Hno].
    apply negb_true_iff in Hc. rewrite Hc, IH by exact Hno.
    rewrite append_assoc. reflexivity.
Qed.

Lemma split_slash_dir (dir name cur : string) :
  exists pre, split_slash (dir +:+ "/" +:+ name) cur =
              (pre ++ split_slash name "")%list.
Proof.
  revert cur. induction dir as [| c dir IH]; intros cur.
  - exists [cur]. reflexivity.
  - rewrite append_cons. simpl. destruct (Ascii.eqb c "/").
    + destruct (IH "") as [pre Hpre]. exists (cur :: pre).
      rewrite Hpre. reflexivity.
    + apply IH.
Qed.

Lemma filter_is_part_one (name : string) :
  is_part name = true -> filter is_part [name] = [name].
Proof.
  intros H. rewrite filter_cons, decide_True by (rewrite H; exact I).
  reflexivity.
Qed.

Lemma Path_name_in_dir (dir name : string) :
  no_slash name = true -> is_part name = true ->
  Path_name (dir +:+ "/" +:+ name) = name /\ Path_name name = name.
Proof.
  intros Hno Hpart. unfold Path_name, parse_parts. split.
  - destruct (split_slash_dir dir name "") as [pre ->].
    rewrite split_slash_no_slash by exact Hno. simpl.
    rewrite filter_app, filter_is_part_one by exact Hpart.
    rewrite last_snoc. reflexivity.
  - rewrite split_slash_no_slash by exact Hno. simpl.
    rewrite filter_is_part_one by exact Hpart. reflexivity.
Qed.

Example Path_name_examples :
  Path_name <$> ["a/b/c.wav"; "a/b/"; "/"; "."; "a/."; "a/.."; "//a";
                 "a//b.wav"; "./x.wav"] =
  ["c.wav"; "b"; ""; ""; "a"; ".."; "a"; "b.wav"; "x.wav"].
Proof. reflexivity. Qed.

(** ** Loading a pad (C2, C8) *)

Lemma PyCartAudio_init_valid (w : World) (fname : string) (content : bytes)
    (i : SndHeaders) (wv : WaveObject) :
  fs w !! fname = Some content ->
  sndhdr_tests w content = Some i ->
  wave_read w content = Return wv ->
  PyCartAudio_init w fname = Return (mk_PyCartAudio i wv fname).
Proof.
  intros Hfs Hhdr Hwav.
  unfold PyCartAudio_init, whathdr, from_wave_file, open_rb.
  rewrite Hfs. simpl. rewrite Hhdr. simpl. rewrite Hwav. reflexivity.
Qed.

(** C8, as the claim states it, fails: the program's test of a valid audio
    file is the header test of [sndhdr] ([whathdr] returns a header and no
    [PyCartError] is raised), and a file that passes it need not be a wave
    file.  For such a file [do_load] does not succeed: the exception of
    [from_wave_file] leaves it, and the pad stays Idle under its number. *)
Lemma recognised_audio_file_that_is_not_wave_is_not_loaded :
  let p := PyCartButton.init 1 "#d9d9d9" in
  let r := PyCartButton.do_load aiff_world "/home/dj/clap.aiff" p in
  whathdr aiff_world "/home/dj/clap.aiff" =
    Return (Some (mk_SndHeaders "aiff" 44100 2 100 16)) /\
  r.1 = Raise WaveError /\
  _file (button r.2) = None /\
  visual_state (button r.2) = Idle /\
  text (button r.2) = "1".
Proof. repeat split; reflexivity. Qed.

(** C8 (amended): for every path whose file exists, has a header [sndhdr]
    recognises and is read by [WaveObject.from_wave_file] (a wave file),
    [do_load] succeeds, stores the new sample in place of whatever the pad
    held, turns the pad green (Loaded) whatever it was before, shows no
    error, and sets the text of the pad to [Path(fname).name], the part of
    the path after its last slash. *)
Theorem do_load_valid_path_loads
    (w : World) (fname : string) (content : bytes) (i : SndHeaders)
    (wv : WaveObject) (p : Pad) :
  fs w !! fname = Some content ->
  sndhdr_tests w content = Some i ->
  wave_read w content = Return wv ->
  let r := PyCartButton.do_load w fname p in
  r.1 = Return () /\
  _file (button r.2) = Some (mk_PyCartAudio i wv fname) /\
  visual_state (button r.2) = Loaded /\
  text (button r.2) = Path_name fname /\
  (forall dir name, no_slash name = true -> is_part name = true ->
     fname = dir +:+ "/" +:+ name \/ fname = name ->
     text (button r.2) = name) /\
  errors_shown r.2 = errors_shown p /\
  units r.2 = units p /\ history r.2 = history p.
Proof.
  intros Hfs Hhdr Hwav r. subst r. unfold PyCartButton.do_load.
  rewrite (PyCartAudio_init_valid w fname content i wv) by assumption.
  simpl. repeat split.
  intros dir name Hno Hpart [-> | ->];
    apply (Path_name_in_dir dir name Hno Hpart).
Qed.

Lemma do_load_valid_path_loads_witness :
  let p := PyCartButton.init 1 "#d9d9d9" in
  let r := PyCartButton.do_load example_world "/home/dj/kick.wav" p in
  r.1 = Return () /\ visual_state (button r.2) = Loaded /\
  text (button r.2) = "kick.wav".
Proof.
  intros p r.
  destruct (do_load_valid_path_loads example_world "/home/dj/kick.wav"
              (String.list_byte_of_string "RIFF....WAVEfmt ")
              (mk_SndHeaders "wav" 44100 2 (-1) 16)
              (mk_WaveObject (String.list_byte_of_string "RIFF....WAVEfmt ")
                 2 2 44100) p)
    as (Hret & _ & Hvis & _ & Hname & _); try reflexivity.
  split; [exact Hret |]. split; [exact Hvis |].
  apply (Hname "/home/dj" "kick.wav"); [reflexivity | reflexivity |].
  left. reflexivity.
Defined.

(** A file that exists and that [sndhdr] does not recognise: the error is
    caught, shown in a message box, and the pad is as it was. *)
Lemma do_load_unrecognised_is_reported
    (w : World) (fname : string) (content : bytes) (p : Pad) :
  fs w !! fname = Some content ->
  sndhdr_tests w content = None ->
  let r := PyCartButton.do_load w fname p in
  r.1 = Return () /\ button r.2 = button p /\ units r.2 = units p /\
  escaped r.2 = escaped p /\
  errors_shown r.2 =
    (errors_shown p ++
     [("Error", "Could not load file " +:+ fname +:+
                ". Not a valid audio file.")])%list.
Proof.
  intros Hfs Hhdr r. subst r.
  unfold PyCartButton.do_load, PyCartAudio_init, whathdr, open_rb.
  rewrite Hfs. simpl. rewrite Hhdr. simpl. repeat split.
Qed.

(** C2, at the failing input: for a path that names no file, [whathdr]
    raises [FileNotFoundError] out of [open]; [do_load] catches
    [PyCartError] only, so the exception leaves [do_load] and, through the
    menu entry or [PyCart.open], the handler, and no message box is shown.
    The pad itself is as it was. *)
Theorem do_load_missing_file_escapes
    (w : World) (fname : string) (p : Pad) :
  fs w !! fname = None ->
  PyCartButton.do_load w fname p = (Raise (FileNotFoundError fname), p) /\
  errors_shown (PyCartButton.step w (PyCartButton.DoLoad fname) p) =
    errors_shown p /\
  escaped (PyCartButton.step w (PyCartButton.DoLoad fname) p) =
    (escaped p ++ [FileNotFoundError fname])%list.
Proof.
  intros Hfs.
  assert (H : PyCartButton.do_load w fname p =
              (Raise (FileNotFoundError fname), p)).
  { unfold PyCartButton.do_load, PyCartAudio_init, whathdr, open_rb.
    rewrite Hfs. reflexivity. }
  split; [exact H |]. simpl. rewrite H. simpl. split; reflexivity.
Qed.

Lemma do_load_missing_file_escapes_witness :
  fs example_world !! "/home/dj/snare.wav" = None /\
  PyCartButton.do_load example_world "/home/dj/snare.wav"
    (PyCartButton.init 1 "#d9d9d9") =
  (Raise (FileNotFoundError "/home/dj/snare.wav"),
   PyCartButton.init 1 "#d9d9d9").
Proof.
  split; [reflexivity |].
  apply (do_load_missing_file_escapes example_world "/home/dj/snare.wav"
           (PyCartButton.init 1 "#d9d9d9")).
  reflexivity.
Defined.

(** ** Reset and play (C9) *)

Lemma neutral_bg_is_idle (b : PyCartButton) :
  neutral_bg (bg b) -> visual_state b = Idle.
Proof.
  intros [Hred Hgreen]. unfold visual_state.
  apply String.eqb_neq in Hred, Hgreen. rewrite Hred, Hgreen. reflexivity.
Qed.

(** C9: [reset] drops the sample and puts the pad back to Idle, with its
    default background and its number as text, whatever state it was in;
    and [play] on a pad that holds no sample changes nothing: no playback
    thread is started, so neither callback is ever called for it.  In
    particular [play] after [reset] does nothing. *)
Theorem reset_returns_to_idle_and_play_needs_a_sample (p : Pad) :
  neutral_bg (_default_bg (button p)) ->
  let q := PyCartButton.reset p in
  (_file (button q) = None /\ visual_state (button q) = Idle /\
   bg (button q) = _default_bg (button p) /\
   text (button q) = PyFormat.str (_id (button p))) /\
  PyCartButton.play q = q /\
  (forall p' : Pad, _file (button p') = None ->
     PyCartButton.play p' = p' /\
     units (PyCartButton.play p') = units p' /\
     history (PyCartButton.play p') = history p' /\
     PyCartButton.on_click p' = p').
Proof.
  intros Hneutral q. split; [| split].
  - subst q. unfold PyCartButton.reset, PyCartButton.set_button. simpl.
    repeat split. apply neutral_bg_is_idle. exact Hneutral.
  - reflexivity.
  - intros p' Hnone. unfold PyCartButton.on_click, PyCartButton.play.
    rewrite Hnone. repeat split. destruct (widget_state (button p'));
      reflexivity.
Qed.

Lemma reset_returns_to_idle_and_play_needs_a_sample_witness :
  let p := PyCartButton.run example_world
             [PyCartButton.DoLoad "/home/dj/kick.wav"; PyCartButton.MenuPlay;
              PyCartButton.UnitStep 0]
             (PyCartButton.init 4 "#d9d9d9") in
  neutral_bg (_default_bg (button p)) /\
  visual_state (button p) = Playing /\
  visual_state (button (PyCartButton.reset p)) = Idle /\
  PyCartButton.play (PyCartButton.reset p) = PyCartButton.reset p.
Proof.
  intros p.
  assert (Hneutral : neutral_bg (_default_bg (button p)))
    by (split; discriminate).
  split; [exact Hneutral |]. split; [reflexivity |].
  destruct (reset_returns_to_idle_and_play_needs_a_sample p Hneutral)
    as ((_ & Hidle & _) & Hplay & _).
  split; [exact Hidle | exact Hplay].
Defined.

(** ** The playback threads of a pad (C5) *)

Lemma run_cons (w : World) (a : PyCartButton.action)
    (sched : list PyCartButton.action) (p : Pad) :
  PyCartButton.run w (a :: sched) p =
    PyCartButton.run w sched (PyCartButton.step w a p).
Proof. reflexivity. Qed.

Lemma run_preserves (w : World) (P : Pad -> Prop) :
  (forall a p, P p -> P (PyCartButton.step w a p)) ->
  forall sched p, P p -> P (PyCartButton.run w sched p).
Proof.
  intros Hstep sched. induction sched as [| a sched IH]; intros p Hp.
  - exact Hp.
  - rewrite run_cons. apply IH, Hstep, Hp.
Qed.










Lemma run_app (w : World) (sched1 sched2 : list PyCartButton.action)
    (p : Pad) :
  PyCartButton.run w (sched1 ++ sched2)%list p =
    PyCartButton.run w sched2 (PyCartButton.run w sched1 p).
Proof. unfold PyCartButton.run. apply foldl_app. Qed.




(** ** The colour of a pad and its sample (C3) *)

Lemma quiet_units_done (p : Pad) (u : nat) (pc : unit_pc) :
  PyCartButton.quiet p = true -> units p !! u = Some pc -> pc = UnitDone.
Proof.
  unfold PyCartButton.quiet. intros Hq Hu.
  rewrite forallb_forall in Hq.
  assert (Hin : In pc (units p)).
  { apply list_elem_of_In. eapply list_elem_of_lookup_2. exact Hu. }
  apply Hq in Hin. destruct pc; try discriminate. reflexivity.
Qed.

Lemma quiet_unit_step (p : Pad) (u : nat) :
  PyCartButton.quiet p = true -> PyCartButton.unit_step u p = p.
Proof.
  intros Hq. unfold PyCartButton.unit_step.
  destruct (units p !! u) as [pc |] eqn:Hu; [| reflexivity].
  rewrite (quiet_units_done p u pc Hq Hu). reflexivity.
Qed.

Lemma pad_inv_do_load (w : World) (fname : string) (p : Pad) :
  pad_inv p -> pad_inv (PyCartButton.handler (PyCartButton.do_load w fname p)).
Proof.
  intros [Hneutral Hinv]. unfold PyCartButton.do_load.
  destruct (PyCartAudio_init w fname) as [a | []]; simpl;
    try (split; [exact Hneutral | exact Hinv]).
  split; [exact Hneutral |]. simpl. left. reflexivity.
Qed.

Lemma pad_inv_play (p : Pad) : pad_inv p -> pad_inv (PyCartButton.play p).
Proof.
  intros [Hneutral Hinv]. unfold PyCartButton.play.
  destruct (_file (button p)) eqn:Hf; [| split; [| rewrite Hf]; assumption].
  split; [exact Hneutral |]. unfold PyCartButton.start. simpl.
  rewrite Hf. exact Hinv.
Qed.

Lemma pad_inv_unit_step (u : nat) (p : Pad) :
  pad_inv p -> pad_inv (PyCartButton.unit_step u p).
Proof.
  intros [Hneutral Hinv].
  destruct (_file (button p)) eqn:Hf.
  - unfold PyCartButton.unit_step.
    destruct (units p !! u) as [[] |]; split; simpl; rewrite ?Hf; auto.
  - rewrite quiet_unit_step by apply Hinv.
    split; [| rewrite Hf]; assumption.
Qed.

Lemma pad_inv_step (w : World) (a : PyCartButton.action) (p : Pad) :
  pad_inv p ->
  match a with
  | PyCartButton.MenuReset => PyCartButton.quiet p = true
  | _ => True
  end ->
  pad_inv (PyCartButton.step w a p).
Proof.
  intros Hinv Hguard. destruct a as [fname | fname | | | | | u]; simpl.
  - unfold PyCartButton.load. destruct (String.eqb fname "");
      [exact Hinv | apply pad_inv_do_load, Hinv].
  - apply pad_inv_do_load, Hinv.
  - apply pad_inv_play, Hinv.
  - unfold PyCartButton.on_click. destruct (widget_state (button p));
      [apply pad_inv_play |]; exact Hinv.
  - exact Hinv.
  - destruct Hinv as [Hneutral _]. split; [exact Hneutral |]. simpl.
    split; [reflexivity | exact Hguard].
  - apply pad_inv_unit_step, Hinv.
Qed.

Lemma pad_inv_run (w : World) (sched : list PyCartButton.action) (p : Pad) :
  pad_inv p -> PyCartButton.resets_when_quiet w sched p = true ->
  pad_inv (PyCartButton.run w sched p).
Proof.
  revert p. induction sched as [| a sched IH]; intros p Hinv Hq.
  - exact Hinv.
  - simpl in Hq. apply andb_true_iff in Hq as [Ha Hq].
    rewrite run_cons. apply IH; [| exact Hq].
    apply pad_inv_step; [exact Hinv |]. destruct a; auto.
Qed.

(** C3, as the claim states it, fails: a loaded pad is played and reset
    while its playback thread is alive; the thread then calls [_on_stop],
    which turns the pad green: it shows Loaded and holds no sample. *)
Lemma reset_during_playback_shows_loaded_without_sample :
  let p := PyCartButton.run example_world
             [PyCartButton.DoLoad "/home/dj/kick.wav"; PyCartButton.MenuPlay;
              PyCartButton.UnitStep 0; PyCartButton.MenuReset;
              PyCartButton.UnitStep 0; PyCartButton.UnitStep 0;
              PyCartButton.UnitStep 0]
             (PyCartButton.init 1 "#d9d9d9") in
  _file (button p) = None /\ visual_state (button p) = Loaded.
Proof. split; reflexivity. Qed.

(** C3 (amended): for every sequence of pad operations and playback steps
    in which reset is used only while no playback thread of the pad is
    alive, the visual state agrees with the sample: it is Idle when the
    pad holds none, and Loaded or Playing exactly when it holds one. *)
Theorem visual_state_agrees_with_sample_when_resets_are_quiet
    (w : World) (id : Z) (default_bg : string)
    (sched : list PyCartButton.action) :
  neutral_bg default_bg ->
  PyCartButton.resets_when_quiet w sched (PyCartButton.init id default_bg)
    = true ->
  let p := PyCartButton.run w sched (PyCartButton.init id default_bg) in
  (_file (button p) = None -> visual_state (button p) = Idle) /\
  (is_Some (_file (button p)) ->
     visual_state (button p) = Loaded \/ visual_state (button p) = Playing) /\
  (visual_state (button p) = Loaded \/ visual_state (button p) = Playing ->
     is_Some (_file (button p))).
Proof.
  intros Hneutral Hq p.
  assert (Hinv : pad_inv p).
  { apply pad_inv_run; [| exact Hq]. split; [exact Hneutral |]. simpl.
    split; reflexivity. }
  destruct Hinv as [Hn Hinv].
  destruct (_file (button p)) as [a |] eqn:Hf.
  - assert (Hvis : visual_state (button p) = Loaded \/
                   visual_state (button p) = Playing).
    { unfold visual_state. destruct Hinv as [-> | ->]; simpl; auto. }
    split; [discriminate |]. split; [intros _; exact Hvis | eauto].
  - destruct Hinv as [Hbg _].
    assert (Hidle : visual_state (button p) = Idle)
      by (apply neutral_bg_is_idle; rewrite Hbg; exact Hn).
    split; [intros _; exact Hidle |].
    split; [intros [? [=]] |].
    rewrite Hidle. intros [[=] | [=]].
Qed.

Lemma visual_state_agrees_with_sample_when_resets_are_quiet_witness :
  let sched :=
    [PyCartButton.DoLoad "/home/dj/kick.wav"; PyCartButton.MenuPlay;
     PyCartButton.UnitStep 0; PyCartButton.UnitStep 0;
     PyCartButton.UnitStep 0; PyCartButton.UnitStep 0;
     PyCartButton.MenuReset] in
  let p := PyCartButton.run example_world sched
             (PyCartButton.init 1 "#d9d9d9") in
  neutral_bg "#d9d9d9" /\
  PyCartButton.resets_when_quiet example_world sched
    (PyCartButton.init 1 "#d9d9d9") = true /\
  _file (button p) = None /\ visual_state (button p) = Idle.
Proof.
  intros sched p.
  assert (Hneutral : neutral_bg "#d9d9d9") by (split; discriminate).
  assert (Hq : PyCartButton.resets_when_quiet example_world sched
                 (PyCartButton.init 1 "#d9d9d9") = true) by reflexivity.
  split; [exact Hneutral |]. split; [exact Hq |]. split; [reflexivity |].
  apply (visual_state_agrees_with_sample_when_resets_are_quiet
           example_world 1 "#d9d9d9" sched Hneutral Hq).
  reflexivity.
Defined.

(** ** Loading a configuration (C10) *)

Example codec_lookup_examples :
  Codecs.normalize_encoding "utf=8" = "utf_8" /\
  Codecs.lookup "UTF-8" = Some Codecs.utf_8 /\
  Codecs.lookup "utf8" = Some Codecs.utf_8 /\
  Codecs.lookup "utf=9" = None.
Proof. repeat split; reflexivity. Qed.

Example utf_8_decode_examples :
  Codecs.utf_8_decode [97; 195; 169; 226; 130; 172; 240; 159; 152; 128]%N =
    Some [97; 233; 8364; 128512]%N /\
  Codecs.utf_8_decode [192; 128]%N = None /\
  Codecs.utf_8_decode [237; 160; 128]%N = None.
Proof. repeat split; reflexivity. Qed.

(** C10, as the claim states it, fails: the name [utf=8] is found by the
    codec lookup, and [load_conf] returns the configuration of an empty
    file. *)
Lemma load_conf_returns_a_configuration :
  Codecs.lookup "utf=8" = Some Codecs.utf_8 /\
  load_conf example_world "/home/dj/empty.toml" = Return [].
Proof. split; reflexivity. Qed.

(** C10 (amended): [load_conf] decodes the bytes of the file with the
    encoding name [utf=8], which the codec lookup normalises to [utf_8]:
    the bytes are decoded as UTF-8 and [load_conf] returns what
    [toml.loads] returns on the decoded text.  It raises when the file is
    missing, when its bytes are not UTF-8, or when [toml.loads] raises. *)
Theorem load_conf_decodes_as_utf_8 (w : World) (filename : string) :
  Codecs.normalize_encoding "utf=8" = "utf_8" /\
  Codecs.lookup "utf=8" = Some Codecs.utf_8 /\
  (fs w !! filename = None ->
     load_conf w filename = Raise (FileNotFoundError filename)) /\
  (forall content : bytes, fs w !! filename = Some content ->
     (Codecs.utf_8_decode (Byte.to_N <$> content) = None ->
        load_conf w filename = Raise UnicodeDecodeError) /\
     (forall s, Codecs.utf_8_decode (Byte.to_N <$> content) = Some s ->
        load_conf w filename = toml_loads w s /\
        forall conf, toml_loads w s = Return conf ->
          load_conf w filename = Return conf)).
Proof.
  split; [reflexivity |]. split; [reflexivity |].
  unfold load_conf, open_rb, Codecs.decode.
  change (Codecs.lookup "utf=8") with (Some Codecs.utf_8).
  split.
  - intros ->. reflexivity.
  - intros content ->. simpl. split.
    + intros ->. reflexivity.
    + intros s ->. simpl. split; [reflexivity | auto].
Qed.

Lemma load_conf_decodes_as_utf_8_witness :
  fs example_world !! "/home/dj/empty.toml" = Some [] /\
  Codecs.utf_8_decode (Byte.to_N <$> []) = Some [] /\
  load_conf example_world "/home/dj/empty.toml" =
    toml_loads example_world [].
Proof.
  split; [reflexivity |]. split; [reflexivity |].
  destruct (load_conf_decodes_as_utf_8 example_world "/home/dj/empty.toml")
    as (_ & _ & _ & Hfile).
  destruct (Hfile [] eq_refl) as [_ Hdec].
  exact (proj1 (Hdec [] eq_refl)).
Defined.

(** * Further properties *)

(** ** The countdown *)

Lemma countdown_range (now : datetime) :
  datetime_ok now ->
  0 <= Clock.sec_remaining now <= 59 /\
  0 <= Clock.min_remaining now <= 60 /\
  (Clock.min_remaining now = 60 <-> minute now = 0 /\ second now = 0) /\
  ~ (Clock.min_remaining now = 0 /\ Clock.sec_remaining now = 0).
Proof.
  intros (Hh & Hm & Hs).
  unfold Clock.sec_remaining, Clock.min_remaining.
  destruct (Z.eq_dec (second now) 0) as [E | Hne].
  - rewrite E. change ((60 - 0) mod 60) with 0. change ((60 - 0) / 60) with 1.
    repeat split; try lia.
  - rewrite (Z.mod_small (60 - second now)), (Z.div_small (60 - second now))
      by lia.
    repeat split; try lia.
Qed.

(** X1: for a valid time the seconds of the countdown are within 0..59 and
    its minutes within 0..60; the minutes are 60 exactly on the hour, and
    minutes and seconds are never both zero: the countdown never shows
    [-00:00]. *)
Theorem countdown_bounds (now : datetime) :
  datetime_ok now ->
  0 <= Clock.sec_remaining now <= 59 /\
  0 <= Clock.min_remaining now <= 60 /\
  (Clock.min_remaining now = 60 <-> minute now = 0 /\ second now = 0) /\
  ~ (Clock.min_remaining now = 0 /\ Clock.sec_remaining now = 0).
Proof. apply countdown_range. Qed.

Lemma countdown_bounds_witness :
  datetime_ok (mk_datetime 9 0 0) /\
  Clock.min_remaining (mk_datetime 9 0 0) = 60.
Proof.
  assert (Hok : datetime_ok (mk_datetime 9 0 0))
    by (unfold datetime_ok; simpl; lia).
  split; [exact Hok |].
  destruct (countdown_bounds (mk_datetime 9 0 0) Hok) as (_ & _ & Hiff & _).
  apply Hiff. split; reflexivity.
Defined.

Lemma two_digits_length (z : Z) : String.length (two_digits z) = 2%nat.
Proof. reflexivity. Qed.

Lemma length_append (a b : string) :
  String.length (a +:+ b) = (String.length a + String.length b)%nat.
Proof.
  induction a as [| x a IH]; [reflexivity |].
  rewrite append_cons. simpl. rewrite IH. reflexivity.
Qed.

(** X2: for a valid time both strings of a tick have a fixed width: the
    current time is 8 characters long and the countdown 6. *)
Theorem tick_strings_have_fixed_width (now : datetime) :
  datetime_ok now ->
  String.length (Clock.current_time now) = 8%nat /\
  String.length (Clock.remaining now) = 6%nat.
Proof.
  intros Hok.
  destruct (countdown_range now Hok) as (Hsec & Hmin & _).
  destruct Hok as (Hh & Hm & Hs).
  unfold Clock.current_time, strftime_HMS, Clock.remaining.
  rewrite !format_02_below_100 by lia.
  rewrite !length_append, !two_digits_length. split; reflexivity.
Qed.

Lemma tick_strings_have_fixed_width_witness :
  datetime_ok (mk_datetime 23 59 59) /\
  String.length (Clock.remaining (mk_datetime 23 59 59)) = 6%nat.
Proof.
  assert (Hok : datetime_ok (mk_datetime 23 59 59))
    by (unfold datetime_ok; simpl; lia).
  split; [exact Hok |].
  apply (tick_strings_have_fixed_width (mk_datetime 23 59 59) Hok).
Defined.

(** ** Registering observers *)

(** X3: [add_callback] registers the callback under the key and leaves
    every other registration as it was.  Under a new key the registry
    grows by one; under a key in use the callback replaces the old one,
    the size stays, and a tick calls the new callback once under that
    key. *)
Theorem add_callback_registers_or_replaces
    {Callback : Type} (name : string) (cb : Callback)
    (cbs : gmap string Callback) :
  Clock.add_callback name cb cbs !! name = Some cb /\
  (forall other, other <> name ->
     Clock.add_callback name cb cbs !! other = cbs !! other) /\
  (cbs !! name = None ->
     size (Clock.add_callback name cb cbs) = S (size cbs)) /\
  (forall old, cbs !! name = Some old ->
     size (Clock.add_callback name cb cbs) = size cbs) /\
  (forall now,
     filter (fun c => Clock.call_key c = name)
       (Clock.tick now (Clock.add_callback name cb cbs)) =
     [Clock.mk_call name cb (Clock.current_time now) (Clock.remaining now)]).
Proof.
  unfold Clock.add_callback.
  assert (Hin : <[name := cb]> cbs !! name = Some cb)
    by apply lookup_insert_eq.
  split; [exact Hin |]. split; [| split; [| split]].
  - intros other Hne. apply lookup_insert_ne. congruence.
  - apply map_size_insert_None.
  - intros old Hold. apply map_size_insert_Some. rewrite Hold. eauto.
  - intros now. unfold Clock.tick. rewrite filter_calls_fmap.
    rewrite (filter_key_unique name cb); [reflexivity | |].
    + apply NoDup_fst_map_to_list.
    + apply elem_of_map_to_list, Hin.
Qed.

Lemma add_callback_registers_or_replaces_witness :
  ({[ "mini" := 7%nat ]} : gmap string nat) !! "mini" = Some 7%nat /\
  size (Clock.add_callback "mini" 8%nat {[ "mini" := 7%nat ]}) =
    size ({[ "mini" := 7%nat ]} : gmap string nat).
Proof.
  split; [reflexivity |].
  destruct (add_callback_registers_or_replaces "mini" 8%nat
              ({[ "mini" := 7%nat ]} : gmap string nat))
    as (_ & _ & _ & Hsame & _).
  apply (Hsame 7%nat). reflexivity.
Defined.

(** X4: removing a key just registered gives back the registry without
    that key: exactly the registry from before when the key was new (as
    for the key of a clock window, removed when the window closes).  A key
    that has been removed cannot be removed again: the second
    [remove_callback] raises [KeyError]. *)
Theorem remove_callback_undoes_add_callback
    {Callback : Type} (name : string) (cb : Callback)
    (cbs : gmap string Callback) :
  Clock.remove_callback name (Clock.add_callback name cb cbs) =
    Return (delete name cbs) /\
  (cbs !! name = None ->
     Clock.remove_callback name (Clock.add_callback name cb cbs) =
       Return cbs) /\
  (forall cbs', Clock.remove_callback name cbs = Return cbs' ->
     Clock.remove_callback name cbs' = Raise (KeyError name)).
Proof.
  unfold Clock.remove_callback, Clock.add_callback.
  rewrite lookup_insert_eq, delete_insert_eq.
  split; [reflexivity |]. split.
  - intros Hnone. rewrite delete_id by exact Hnone. reflexivity.
  - intros cbs'. destruct (cbs !! name); [| discriminate].
    intros [= <-]. rewrite lookup_delete_eq. reflexivity.
Qed.

Lemma remove_callback_undoes_add_callback_witness :
  ({[ "mini" := 7%nat ]} : gmap string nat) !! "a3f0" = None /\
  Clock.remove_callback "a3f0"
    (Clock.add_callback "a3f0" 9%nat {[ "mini" := 7%nat ]}) =
  Return ({[ "mini" := 7%nat ]} : gmap string nat).
Proof.
  split; [reflexivity |].
  apply (remove_callback_undoes_add_callback "a3f0" 9%nat
           ({[ "mini" := 7%nat ]} : gmap string nat)).
  reflexivity.
Defined.

(** ** The clock loop *)

Section ClockLoop.
Context {Callback : Type}.
Implicit Types (s : Clock.state Callback) (a : Clock.action Callback).
Implicit Types (sched : list (Clock.action Callback)).





End ClockLoop.





(** ** The label and the state of a pad *)

Lemma PyCartAudio_init_file (w : World) (fname : string) (a : PyCartAudio) :
  PyCartAudio_init w fname = Return a -> file a = fname.
Proof.
  unfold PyCartAudio_init, whathdr, from_wave_file, open_rb.
  destruct (fs w !! fname) as [content |]; simpl; [| discriminate].
  destruct (sndhdr_tests w content) as [i |]; simpl; [| discriminate].
  destruct (wave_read w content) as [wv |]; simpl; [| discriminate].
  intros [= <-]. reflexivity.
Qed.

Lemma label_inv_do_load (w : World) (fname : string) (p : Pad) :
  label_inv p ->
  label_inv (PyCartButton.handler (PyCartButton.do_load w fname p)).
Proof.
  intros Hinv. unfold PyCartButton.do_load.
  destruct (PyCartAudio_init w fname) as [a | e] eqn:Hinit.
  - unfold label_inv. simpl.
    rewrite (PyCartAudio_init_file w fname a Hinit). reflexivity.
  - destruct e; exact Hinv.
Qed.

Lemma label_inv_unit_step (u : nat) (p : Pad) :
  label_inv p -> label_inv (PyCartButton.unit_step u p).
Proof.
  intros Hinv. unfold PyCartButton.unit_step.
  destruct (units p !! u) as [[] |]; exact Hinv.
Qed.

Lemma label_inv_play (p : Pad) : label_inv p -> label_inv (PyCartButton.play p).
Proof.
  intros Hinv. unfold PyCartButton.play.
  destruct (_file (button p)) eqn:Hf; [| exact Hinv].
  unfold label_inv, PyCartButton.start. simpl. exact Hinv.
Qed.

Lemma label_inv_step (w : World) (a : PyCartButton.action) (p : Pad) :
  label_inv p -> label_inv (PyCartButton.step w a p).
Proof.
  intros Hinv. destruct a as [fname | fname | | | | | u]; simpl.
  - unfold PyCartButton.load. destruct (String.eqb fname "");
      [exact Hinv | apply label_inv_do_load, Hinv].
  - apply label_inv_do_load, Hinv.
  - apply label_inv_play, Hinv.
  - unfold PyCartButton.on_click. destruct (widget_state (button p));
      [apply label_inv_play |]; exact Hinv.
  - exact Hinv.
  - reflexivity.
  - apply label_inv_unit_step, Hinv.
Qed.

Lemma button_constants_step (w : World) (a : PyCartButton.action) (p : Pad) :
  _id (button (PyCartButton.step w a p)) = _id (button p) /\
  _default_bg (button (PyCartButton.step w a p)) = _default_bg (button p).
Proof.
  destruct a as [fname | fname | | | | | u]; simpl; auto.
  - unfold PyCartButton.load. destruct (String.eqb fname ""); [auto |].
    unfold PyCartButton.do_load.
    destruct (PyCartAudio_init w fname) as [? | []]; simpl; auto.
  - unfold PyCartButton.do_load.
    destruct (PyCartAudio_init w fname) as [? | []]; simpl; auto.
  - unfold PyCartButton.play. destruct (_file (button p)); simpl; auto.
  - unfold PyCartButton.on_click, PyCartButton.play.
    destruct (widget_state (button p)), (_file (button p)); simpl; auto.
  - unfold PyCartButton.unit_step.
    destruct (units p !! u) as [[] |]; simpl; auto.
Qed.

(** X7: whatever is done to a pad, in any order and with any playback
    running, its text names the sample it holds: it is the name of the
    file of the sample when there is one, and the number of the pad when
    there is none.  The number and the default background never change. *)
Theorem pad_text_names_its_sample
    (w : World) (id : Z) (default_bg : string)
    (sched : list PyCartButton.action) :
  let p := PyCartButton.run w sched (PyCartButton.init id default_bg) in
  (forall a, _file (button p) = Some a ->
     text (button p) = Path_name (file a)) /\
  (_file (button p) = None -> text (button p) = PyFormat.str id) /\
  _id (button p) = id /\ _default_bg (button p) = default_bg.
Proof.
  intros p.
  assert (Hlabel : label_inv p).
  { apply (run_preserves w label_inv); [apply label_inv_step | reflexivity]. }
  assert (Hconst : _id (button p) = id /\ _default_bg (button p) = default_bg).
  { apply (run_preserves w (fun q => _id (button q) = id /\
                                     _default_bg (button q) = default_bg)).
    - intros a q [<- <-]. apply button_constants_step.
    - split; reflexivity. }
  destruct Hconst as [Hid Hbg]. unfold label_inv in Hlabel.
  repeat split; auto.
  - intros a Ha. rewrite Hlabel, Ha. reflexivity.
  - intros Hnone. rewrite Hlabel, Hnone, Hid. reflexivity.
Qed.

Lemma pad_text_names_its_sample_witness :
  let p := PyCartButton.run example_world
             [PyCartButton.DoLoad "/home/dj/kick.wav"; PyCartButton.MenuPlay;
              PyCartButton.UnitStep 0; PyCartButton.MenuReset]
             (PyCartButton.init 4 "#d9d9d9") in
  _file (button p) = None /\ text (button p) = "4".
Proof.
  intros p. split; [reflexivity |].
  apply (pad_text_names_its_sample example_world 4 "#d9d9d9"
           [PyCartButton.DoLoad "/home/dj/kick.wav"; PyCartButton.MenuPlay;
            PyCartButton.UnitStep 0; PyCartButton.MenuReset]).
  reflexivity.
Defined.

Lemma disabled_inv_frame (p q : Pad) :
  widget_state (button q) = widget_state (button p) ->
  (forall u pc, units p !! u = Some pc -> units q !! u = Some pc) ->
  disabled_inv p -> disabled_inv q.
Proof.
  intros Hw Hu Hinv Hd. rewrite Hw in Hd.
  destruct (Hinv Hd) as (u & pc & Hpc & Hplay). eauto.
Qed.

Lemma disabled_inv_do_load (w : World) (fname : string) (p : Pad) :
  disabled_inv p ->
  disabled_inv (PyCartButton.handler (PyCartButton.do_load w fname p)).
Proof.
  intros Hinv. unfold PyCartButton.do_load.
  destruct (PyCartAudio_init w fname) as [a | []]; simpl;
    (eapply disabled_inv_frame; [| | exact Hinv]); simpl; auto.
Qed.

Lemma disabled_inv_play (p : Pad) :
  disabled_inv p -> disabled_inv (PyCartButton.play p).
Proof.
  intros Hinv. unfold PyCartButton.play.
  destruct (_file (button p)); [| exact Hinv].
  eapply disabled_inv_frame; [| | exact Hinv]; simpl; [reflexivity |].
  intros u pc Hpc. rewrite lookup_app_l; [exact Hpc |].
  eapply lookup_lt_Some. exact Hpc.
Qed.

Lemma disabled_inv_unit_step (u : nat) (p : Pad) :
  disabled_inv p -> disabled_inv (PyCartButton.unit_step u p).
Proof.
  intros Hinv. unfold PyCartButton.unit_step.
  destruct (units p !! u) as [pc |] eqn:Hpc; [| exact Hinv].
  assert (Hlt : (u < length (units p))%nat)
    by (eapply lookup_lt_Some; exact Hpc).
  destruct pc; try exact Hinv.
  - intros _. exists u, AtPlay. split; [| reflexivity].
    simpl. apply list_lookup_insert_eq, Hlt.
  - intros _. exists u, AtWaitDone. split; [| reflexivity].
    simpl. apply list_lookup_insert_eq, Hlt.
  - intros _. exists u, AtStopCallback. split; [| reflexivity].
    simpl. apply list_lookup_insert_eq, Hlt.
  - intros Hd. discriminate Hd.
Qed.

Lemma disabled_inv_step (w : World) (a : PyCartButton.action) (p : Pad) :
  disabled_inv p -> disabled_inv (PyCartButton.step w a p).
Proof.
  intros Hinv. destruct a as [fname | fname | | | | | u]; simpl.
  - unfold PyCartButton.load. destruct (String.eqb fname "");
      [exact Hinv | apply disabled_inv_do_load, Hinv].
  - apply disabled_inv_do_load, Hinv.
  - apply disabled_inv_play, Hinv.
  - unfold PyCartButton.on_click. destruct (widget_state (button p));
      [apply disabled_inv_play |]; exact Hinv.
  - exact Hinv.
  - eapply disabled_inv_frame; [| | exact Hinv]; simpl; auto.
  - apply disabled_inv_unit_step, Hinv.
Qed.

(** X8: a pad is never left disabled without a playback: in every state
    it can reach, a disabled pad, the one that ignores clicks, has a
    playback thread that has called [_on_start] and has still to call
    [_on_stop]; so once all its threads have returned the pad is enabled
    again, and a click is not ignored. *)
Theorem disabled_pad_has_a_running_playback
    (w : World) (id : Z) (default_bg : string)
    (sched : list PyCartButton.action) :
  let p := PyCartButton.run w sched (PyCartButton.init id default_bg) in
  (widget_state (button p) = DISABLED ->
     exists u pc, units p !! u = Some pc /\ is_playing pc = true) /\
  (PyCartButton.quiet p = true ->
     widget_state (button p) = NORMAL /\
     PyCartButton.on_click p = PyCartButton.play p).
Proof.
  intros p.
  assert (Hinv : disabled_inv p).
  { apply (run_preserves w disabled_inv); [apply disabled_inv_step |].
    intros Hd. discriminate Hd. }
  split; [exact Hinv |].
  intros Hq.
  assert (Hn : widget_state (button p) = NORMAL).
  { destruct (widget_state (button p)) eqn:Hw; [reflexivity |].
    destruct (Hinv Hw) as (u & pc & Hpc & Hplay).
    rewrite (quiet_units_done p u pc Hq Hpc) in Hplay. discriminate. }
  split; [exact Hn |]. unfold PyCartButton.on_click. rewrite Hn. reflexivity.
Qed.

Lemma disabled_pad_has_a_running_playback_witness :
  let p := PyCartButton.run example_world
             [PyCartButton.DoLoad "/home/dj/kick.wav"; PyCartButton.Click;
              PyCartButton.UnitStep 0; PyCartButton.UnitStep 0]
             (PyCartButton.init 1 "#d9d9d9") in
  widget_state (button p) = DISABLED /\
  exists u pc, units p !! u = Some pc /\ is_playing pc = true.
Proof.
  intros p. split; [reflexivity |].
  apply (disabled_pad_has_a_running_playback example_world 1 "#d9d9d9"
           [PyCartButton.DoLoad "/home/dj/kick.wav"; PyCartButton.Click;
            PyCartButton.UnitStep 0; PyCartButton.UnitStep 0]).
  reflexivity.
Defined.

(** ** One click, one playback *)

Lemma lookup_last_unit (l : list unit_pc) (pc : unit_pc) :
  (l ++ [pc])%list !! length l = Some pc.
Proof. apply list_lookup_middle. reflexivity. Qed.

Lemma insert_last_unit (l : list unit_pc) (pc pc' : unit_pc) :
  <[length l := pc']> (l ++ [pc])%list = (l ++ [pc'])%list.
Proof.
  rewrite insert_app_r_alt by lia. rewrite Nat.sub_diag. reflexivity.
Qed.

Lemma unit_step_last (l : list unit_pc) (pc : unit_pc) (b : PyCartButton)
    (shown : list (string * string)) (esc : list exn)
    (h : list pad_event) :
  PyCartButton.unit_step (length l) (mk_Pad b (l ++ [pc]) shown esc h) =
  match pc with
  | AtStartCallback =>
      mk_Pad (PyCartButton._on_start b) (l ++ [AtPlay]) shown esc
        (EvOnStart (length l) :: h)
  | AtPlay =>
      mk_Pad b (l ++ [AtWaitDone]) shown esc (EvAudioBegin (length l) :: h)
  | AtWaitDone =>
      mk_Pad b (l ++ [AtStopCallback]) shown esc
        (EvAudioDone (length l) :: h)
  | AtStopCallback =>
      mk_Pad (PyCartButton._on_stop b) (l ++ [UnitDone]) shown esc
        (EvOnStop (length l) :: h)
  | UnitDone => mk_Pad b (l ++ [pc]) shown esc h
  end.
Proof.
  unfold PyCartButton.unit_step. simpl. rewrite lookup_last_unit.
  destruct pc; unfold PyCartButton.at_unit; simpl;
    rewrite ?insert_last_unit; reflexivity.
Qed.

Lemma click_starts_a_thread (p : Pad) (a : PyCartAudio) :
  _file (button p) = Some a -> widget_state (button p) = NORMAL ->
  PyCartButton.on_click p =
    mk_Pad (button p) (units p ++ [AtStartCallback]) (errors_shown p)
      (escaped p) (history p).
Proof.
  intros Hfile Hnormal. unfold PyCartButton.on_click, PyCartButton.play.
  rewrite Hnormal, Hfile. reflexivity.
Qed.

(** X9: a click on an enabled pad that holds a sample starts one playback.
    Once its thread has called [_on_start] the pad shows Playing and
    further clicks are ignored; when the thread has run its remaining
    three statements the pad shows Loaded and is enabled again, it holds
    the same sample under the same text, the thread has returned and the
    four events of the playback, and nothing else, have been added to the
    history. *)
Theorem click_plays_once_and_restores_the_pad
    (w : World) (p : Pad) (a : PyCartAudio) :
  _file (button p) = Some a ->
  widget_state (button p) = NORMAL ->
  let u := length (units p) in
  let playing :=
    PyCartButton.run w [PyCartButton.Click; PyCartButton.UnitStep u] p in
  let q :=
    PyCartButton.run w (replicate 3 (PyCartButton.UnitStep u)) playing in
  (visual_state (button playing) = Playing /\
   PyCartButton.on_click playing = playing) /\
  units q = (units p ++ [UnitDone])%list /\
  history q =
    ([EvOnStop u; EvAudioDone u; EvAudioBegin u; EvOnStart u] ++ history p)%list /\
  visual_state (button q) = Loaded /\
  widget_state (button q) = NORMAL /\
  _file (button q) = Some a /\
  text (button q) = text (button p) /\
  errors_shown q = errors_shown p.
Proof.
  intros Hfile Hnormal u playing q. subst playing q u.
  unfold PyCartButton.run. cbn [foldl replicate PyCartButton.step].
  rewrite (click_starts_a_thread p a Hfile Hnormal).
  rewrite !unit_step_last.
  repeat split; try reflexivity. simpl. exact Hfile.
Qed.

Lemma click_plays_once_and_restores_the_pad_witness :
  let p := PyCartButton.run example_world
             [PyCartButton.DoLoad "/home/dj/kick.wav"]
             (PyCartButton.init 1 "#d9d9d9") in
  let q := PyCartButton.run example_world
             (PyCartButton.Click :: replicate 4 (PyCartButton.UnitStep 0)) p in
  widget_state (button p) = NORMAL /\
  units q = [UnitDone] /\ visual_state (button q) = Loaded.
Proof.
  intros p q. split; [reflexivity |].
  destruct (click_plays_once_and_restores_the_pad example_world p
              (mk_PyCartAudio (mk_SndHeaders "wav" 44100 2 (-1) 16)
                 (mk_WaveObject
                    (String.list_byte_of_string "RIFF....WAVEfmt ") 2 2 44100)
                 "/home/dj/kick.wav"))
    as (_ & Hunits & _ & Hvis & _); [reflexivity | reflexivity |].
  split; [exact Hunits | exact Hvis].
Defined.

(** ** Files that cannot be loaded *)

(** X10: a file that exists and whose header [sndhdr] does not recognise
    (an empty file, a text file) is reported and nothing else happens:
    [do_load] returns normally, one message box is shown, with the title
    [Error] and the message naming the file, and the pad keeps its button,
    so the sample it held, its text and its colour, and its playback
    threads; playing it afterwards is as before. *)
Theorem unrecognised_file_is_reported_and_the_pad_kept
    (w : World) (fname : string) (content : bytes) (p : Pad) :
  fs w !! fname = Some content ->
  sndhdr_tests w content = None ->
  let r := PyCartButton.do_load w fname p in
  r.1 = Return () /\
  button r.2 = button p /\ units r.2 = units p /\
  history r.2 = history p /\ escaped r.2 = escaped p /\
  errors_shown r.2 =
    (errors_shown p ++
     [("Error", "Could not load file " +:+ fname +:+
                ". Not a valid audio file.")])%list /\
  units (PyCartButton.play r.2) = units (PyCartButton.play p).
Proof.
  intros Hfs Hhdr r.
  destruct (do_load_unrecognised_is_reported w fname content p Hfs Hhdr)
    as (Hret & Hb & Hu & He & Hs).
  fold r in Hret, Hb, Hu, He, Hs.
  repeat split; auto.
  - subst r. unfold PyCartButton.do_load, PyCartAudio_init, whathdr, open_rb.
    rewrite Hfs. simpl. rewrite Hhdr. reflexivity.
  - unfold PyCartButton.play, PyCartButton.start. rewrite Hb, Hu.
    destruct (_file (button p)); simpl; [reflexivity | exact Hu].
Qed.

Lemma unrecognised_file_is_reported_and_the_pad_kept_witness :
  let p := PyCartButton.run example_world
             [PyCartButton.DoLoad "/home/dj/kick.wav"]
             (PyCartButton.init 1 "#d9d9d9") in
  let r := PyCartButton.do_load example_world "/home/dj/notes.txt" p in
  fs example_world !! "/home/dj/notes.txt" =
    Some (String.list_byte_of_string "not audio") /\
  r.1 = Return () /\ text (button r.2) = "kick.wav" /\
  errors_shown r.2 =
    [("Error",
      "Could not load file /home/dj/notes.txt. Not a valid audio file.")].
Proof.
  intros p r. split; [reflexivity |].
  destruct (unrecognised_file_is_reported_and_the_pad_kept example_world
              "/home/dj/notes.txt"
              (String.list_byte_of_string "not audio") p)
    as (Hret & Hb & _ & _ & _ & Hs & _); [reflexivity | reflexivity |].
  split; [exact Hret |]. split; [| exact Hs].
  fold r in Hb. rewrite Hb. reflexivity.
Defined.

(** X11: a file whose header [sndhdr] recognises and which
    [WaveObject.from_wave_file] cannot read (an audio file that is not a
    wave file): the exception of the reader is not a [PyCartError], so it
    leaves [do_load]; no message box is shown and the pad is as it was. *)
Theorem unreadable_wave_file_escapes
    (w : World) (fname : string) (content : bytes) (i : SndHeaders)
    (e : exn) (p : Pad) :
  fs w !! fname = Some content ->
  sndhdr_tests w content = Some i ->
  wave_read w content = Raise e ->
  (forall msg, e <> PyCartError msg) ->
  PyCartButton.do_load w fname p = (Raise e, p) /\
  PyCartButton.step w (PyCartButton.DoLoad fname) p =
    mk_Pad (button p) (units p) (errors_shown p) (escaped p ++ [e])
      (history p).
Proof.
  intros Hfs Hhdr Hwav Hne.
  assert (H : PyCartButton.do_load w fname p = (Raise e, p)).
  { unfold PyCartButton.do_load, PyCartAudio_init, whathdr, from_wave_file,
      open_rb.
    rewrite Hfs. simpl. rewrite Hhdr. simpl. rewrite Hwav. simpl.
    destruct e; try reflexivity. exfalso. eapply Hne. reflexivity. }
  split; [exact H |]. simpl. rewrite H. reflexivity.
Qed.

Lemma unreadable_wave_file_escapes_witness :
  let w := mk_World {[ "/home/dj/clap.aiff" := [] ]}
             (fun _ => Some (mk_SndHeaders "aiff" 44100 2 100 16))
             (fun _ => Raise WaveError) (fun _ => Raise TomlDecodeError) in
  fs w !! "/home/dj/clap.aiff" = Some [] /\
  PyCartButton.do_load w "/home/dj/clap.aiff" (PyCartButton.init 1 "#d9d9d9")
    = (Raise WaveError, PyCartButton.init 1 "#d9d9d9").
Proof.
  intros w. split; [reflexivity |].
  apply (unreadable_wave_file_escapes w "/home/dj/clap.aiff" []
           (mk_SndHeaders "aiff" 44100 2 100 16) WaveError
           (PyCartButton.init 1 "#d9d9d9"));
    try reflexivity.
  intros msg. discriminate.
Defined.

(** ** The text of a loaded pad *)

Lemma no_slash_app (a b : string) :
  no_slash (a +:+ b) = no_slash a && no_slash b.
Proof.
  induction a as [| x a IH]; [reflexivity |].
  rewrite append_cons. simpl. rewrite IH. apply andb_assoc.
Qed.

Lemma split_slash_parts (s cur : string) :
  no_slash cur = true ->
  Forall (fun x => no_slash x = true) (split_slash s cur).
Proof.
  revert cur. induction s as [| c s IH]; simpl; intros cur Hcur.
  - repeat constructor. exact Hcur.
  - destruct (Ascii.eqb c "/") eqn:Hc.
    + constructor; [exact Hcur | apply IH; reflexivity].
    + apply IH. rewrite no_slash_app, Hcur. simpl. rewrite Hc. reflexivity.
Qed.

Lemma Path_name_cases (fname : string) :
  Path_name fname = "" \/
  (is_part (Path_name fname) = true /\ no_slash (Path_name fname) = true).
Proof.
  unfold Path_name, parse_parts.
  destruct (last (filter is_part (split_slash fname ""))) as [x |] eqn:Hlast;
    [right | left; reflexivity].
  apply last_Some_elem_of, list_elem_of_filter in Hlast as [Hpart Hin].
  simpl. split; [apply Is_true_true, Hpart |].
  pose proof (split_slash_parts fname "" eq_refl) as Hall.
  rewrite Forall_forall in Hall. apply Hall, Hin.
Qed.

(** X12: the text [do_load] gives a loaded pad is a bare file name: it
    contains no slash and is not ["."], whatever the path, and taking the
    name of that text again gives the same text. *)
Theorem loaded_pad_text_is_a_bare_name
    (w : World) (fname : string) (a : PyCartAudio) (p : Pad) :
  PyCartAudio_init w fname = Return a ->
  let t := text (button (PyCartButton.do_load w fname p).2) in
  t = Path_name fname /\
  no_slash t = true /\ t <> "." /\ Path_name t = t.
Proof.
  intros Hinit t. subst t. unfold PyCartButton.do_load. rewrite Hinit.
  simpl. split; [reflexivity |].
  destruct (Path_name_cases fname) as [-> | [Hpart Hno]].
  - repeat split. discriminate.
  - split; [exact Hno |]. split.
    + intros Heq. rewrite Heq in Hpart. discriminate.
    + apply (Path_name_in_dir "" (Path_name fname) Hno Hpart).
Qed.

Lemma loaded_pad_text_is_a_bare_name_witness :
  let p := PyCartButton.init 1 "#d9d9d9" in
  text (button (PyCartButton.do_load example_world "/home/dj/kick.wav" p).2)
    = "kick.wav".
Proof.
  intros p.
  destruct (loaded_pad_text_is_a_bare_name example_world "/home/dj/kick.wav"
              (mk_PyCartAudio (mk_SndHeaders "wav" 44100 2 (-1) 16)
                 (mk_WaveObject
                    (String.list_byte_of_string "RIFF....WAVEfmt ") 2 2 44100)
                 "/home/dj/kick.wav") p eq_refl) as [Ht _].
  rewrite Ht. reflexivity.
Defined.

(** ** Plain text configurations *)

Lemma utf_8_decode_ascii (bs : list N) :
  Forall (fun b => (b < 128)%N) bs -> Codecs.utf_8_decode bs = Some bs.
Proof.
  induction 1 as [| b bs Hb _ IH]; [reflexivity |].
  simpl. apply N.ltb_lt in Hb. rewrite Hb, IH. reflexivity.
Qed.

(** X13: a configuration file made of ASCII bytes only is handed to
    [toml.loads] character for character: the text parsed has the code
    points of the bytes, in order, and [load_conf] returns or raises what
    the parser does on it. *)
Theorem load_conf_parses_ascii_as_it_is
    (w : World) (filename : string) (content : bytes) :
  fs w !! filename = Some content ->
  Forall (fun b => (Byte.to_N b < 128)%N) content ->
  Codecs.decode "utf=8" content = Return (Byte.to_N <$> content) /\
  load_conf w filename = toml_loads w (Byte.to_N <$> content).
Proof.
  intros Hfs Hascii.
  assert (Hdec : Codecs.utf_8_decode (Byte.to_N <$> content) =
                 Some (Byte.to_N <$> content)).
  { apply utf_8_decode_ascii. apply Forall_fmap. exact Hascii. }
  assert (H : Codecs.decode "utf=8" content = Return (Byte.to_N <$> content)).
  { unfold Codecs.decode.
    change (Codecs.lookup "utf=8") with (Some Codecs.utf_8).
    rewrite Hdec. reflexivity. }
  split; [exact H |].
  unfold load_conf, open_rb. rewrite Hfs. simpl. rewrite H. reflexivity.
Qed.

Lemma load_conf_parses_ascii_as_it_is_witness :
  let w := mk_World {[ "pads.toml" := String.list_byte_of_string "pads = []" ]}
             (fun _ => None) (fun _ => Raise WaveError)
             (fun s => Return [(s, TomlArray [])]) in
  fs w !! "pads.toml" = Some (String.list_byte_of_string "pads = []") /\
  load_conf w "pads.toml" =
    Return [([112; 97; 100; 115; 32; 61; 32; 91; 93]%N, TomlArray [])].
Proof.
  intros w. split; [reflexivity |].
  destruct (load_conf_parses_ascii_as_it_is w "pads.toml"
              (String.list_byte_of_string "pads = []")) as [_ H].
  - reflexivity.
  - repeat constructor.
  - rewrite H. reflexivity.
Defined.

(** ** The keyboard *)







(** ** Opening a configuration *)

Lemma do_load_raise_keeps_pad (w : World) (fname : string) (p : Pad)
    (e : exn) :
  (PyCartButton.do_load w fname p).1 = Raise e ->
  (PyCartButton.do_load w fname p).2 = p.
Proof.
  unfold PyCartButton.do_load.
  destruct (PyCartAudio_init w fname) as [a | []]; simpl;
    try discriminate; reflexivity.
Qed.

Lemma open_pads_keeps_before (w : World) (fnames : list string) :
  forall (k : nat) (pads : list Pad) (i : nat),
  (i < k)%nat -> (PyCart.open_pads w k fnames pads).2 !! i = pads !! i.
Proof.
  induction fnames as [| f fnames IH]; intros k pads i Hi; simpl;
    [reflexivity |].
  destruct (pads !! k) as [p |]; [| reflexivity].
  destruct (PyCartButton.do_load w f p).1; simpl.
  - rewrite IH by lia. apply list_lookup_insert_ne. lia.
  - apply list_lookup_insert_ne. lia.
Qed.

Lemma open_pads_returning (w : World) (fnames : list string) :
  forall (k : nat) (pads : list Pad),
  (forall j f p, fnames !! j = Some f -> pads !! (k + j)%nat = Some p ->
     (PyCartButton.do_load w f p).1 = Return ()) ->
  let r := PyCart.open_pads w k fnames pads in
  length r.2 = length pads /\
  ((k + length fnames <= length pads)%nat -> r.1 = None) /\
  ((k <= length pads < k + length fnames)%nat ->
     r.1 = Some (PyCart.OpenIndexError (length pads))) /\
  (forall j f p, fnames !! j = Some f -> pads !! (k + j)%nat = Some p ->
     r.2 !! (k + j)%nat = Some (PyCartButton.do_load w f p).2) /\
  (forall i, (i < k \/ k + length fnames <= i)%nat -> r.2 !! i = pads !! i).
Proof.
  induction fnames as [| f fnames IH]; intros k pads Hret; simpl.
  - repeat split; auto; try lia. intros j f p Hj. discriminate Hj.
  - destruct (pads !! k) as [p |] eqn:Hp.
    + pose proof (Hret 0%nat f p eq_refl) as Hf.
      rewrite Nat.add_0_r in Hf. specialize (Hf Hp).
      rewrite Hf.
      assert (Hlt : (k < length pads)%nat)
        by (eapply lookup_lt_Some; exact Hp).
      set (pads' := <[k := (PyCartButton.do_load w f p).2]> pads).
      assert (Hret' : forall j f' p', fnames !! j = Some f' ->
                pads' !! (S k + j)%nat = Some p' ->
                (PyCartButton.do_load w f' p').1 = Return ()).
      { intros j f' p' Hj Hp'. unfold pads' in Hp'.
        rewrite list_lookup_insert_ne in Hp' by lia.
        apply (Hret (S j) f' p' Hj).
        replace (k + S j)%nat with (S k + j)%nat by lia. exact Hp'. }
      destruct (IH (S k) pads' Hret') as (Hlen & Hnone & Hidx & Hload & Hrest).
      unfold pads' in Hlen. rewrite length_insert in Hlen.
      split; [exact Hlen |]. split; [intros H; apply Hnone |].
      { unfold pads'. rewrite length_insert. lia. }
      split.
      { intros H. unfold pads' in Hidx. rewrite length_insert in Hidx.
        apply Hidx. lia. }
      split.
      * intros [| j] f' p' Hj Hp'.
        -- injection Hj as <-. rewrite Nat.add_0_r in Hp' |- *.
           rewrite Hp in Hp'. injection Hp' as <-.
           rewrite Hrest by lia. unfold pads'.
           apply list_lookup_insert_eq, Hlt.
        -- replace (k + S j)%nat with (S k + j)%nat in Hp' |- * by lia.
           apply Hload; [exact Hj |]. unfold pads'.
           rewrite list_lookup_insert_ne by lia. exact Hp'.
      * intros i Hi. rewrite Hrest by lia. unfold pads'.
        apply list_lookup_insert_ne. lia.
    + apply lookup_ge_None in Hp. simpl.
      split; [reflexivity |]. split; [intros H; lia |].
      split; [intros H; do 2 f_equal; lia |].
      split; [| reflexivity].
      intros j f' p' _ Hp'. apply lookup_lt_Some in Hp'. lia.
Qed.

Lemma open_pads_raising (w : World) (f : string) (after : list string)
    (e : exn) (before : list string) :
  forall (k : nat) (pads : list Pad) (p : Pad),
  (forall j f' p', before !! j = Some f' -> pads !! (k + j)%nat = Some p' ->
     (PyCartButton.do_load w f' p').1 = Return ()) ->
  pads !! (k + length before)%nat = Some p ->
  (PyCartButton.do_load w f p).1 = Raise e ->
  let r := PyCart.open_pads w k (before ++ f :: after) pads in
  r.1 = Some (PyCart.OpenRaised e) /\
  length r.2 = length pads /\
  (forall i, (k + length before <= i)%nat -> r.2 !! i = pads !! i) /\
  (forall j f' p', before !! j = Some f' -> pads !! (k + j)%nat = Some p' ->
     r.2 !! (k + j)%nat = Some (PyCartButton.do_load w f' p').2).
Proof.
  induction before as [| f0 before IH]; intros k pads p Hret Hp Hraise; simpl.
  - rewrite Nat.add_0_r in Hp. rewrite Hp, Hraise.
    rewrite (do_load_raise_keeps_pad w f p e Hraise).
    rewrite list_insert_id by exact Hp. simpl.
    repeat split; auto. intros j f' p' Hj. discriminate Hj.
  - simpl in Hp.
    assert (Hlt : (k < length pads)%nat)
      by (apply lookup_lt_Some in Hp; lia).
    destruct (lookup_lt_is_Some_2 pads k Hlt) as [p0 Hp0]. rewrite Hp0.
    pose proof (Hret 0%nat f0 p0 eq_refl) as Hf.
    rewrite Nat.add_0_r in Hf. specialize (Hf Hp0). rewrite Hf.
    set (pads' := <[k := (PyCartButton.do_load w f0 p0).2]> pads).
    assert (Hret' : forall j f' p', before !! j = Some f' ->
              pads' !! (S k + j)%nat = Some p' ->
              (PyCartButton.do_load w f' p').1 = Return ()).
    { intros j f' p' Hj Hp'. unfold pads' in Hp'.
      rewrite list_lookup_insert_ne in Hp' by lia.
      apply (Hret (S j) f' p' Hj).
      replace (k + S j)%nat with (S k + j)%nat by lia. exact Hp'. }
    assert (Hp' : pads' !! (S k + length before)%nat = Some p).
    { unfold pads'. rewrite list_lookup_insert_ne by lia.
      replace (S k + length before)%nat with (k + S (length before))%nat
        by lia. exact Hp. }
    destruct (IH (S k) pads' p Hret' Hp' Hraise)
      as (Herr & Hlen & Hrest & Hload).
    unfold pads' in Hlen. rewrite length_insert in Hlen.
    split; [exact Herr |]. split; [exact Hlen |]. split.
    + intros i Hi. rewrite Hrest by lia. unfold pads'.
      apply list_lookup_insert_ne. lia.
    + intros [| j] f' p' Hj Hpj.
      * injection Hj as <-. rewrite Nat.add_0_r in Hpj |- *.
        rewrite Hp0 in Hpj. injection Hpj as <-.
        rewrite open_pads_keeps_before by lia.
        unfold pads'. apply list_lookup_insert_eq, Hlt.
      * replace (k + S j)%nat with (S k + j)%nat in Hpj |- * by lia.
        apply Hload; [exact Hj |]. unfold pads'.
        rewrite list_lookup_insert_ne by lia. exact Hpj.
Qed.

(** X15: the loop of [open] loads the entries of the configuration into the
    pads in order.  When every [do_load] returns (each file is loaded, or
    reported as not being audio), entry [j] ends up in pad [j] and the pads
    beyond the last entry are untouched; with no more entries than pads
    the loop ends normally, and with more it raises [IndexError] at the
    first index beyond the pads, after having loaded all of them. *)
Theorem open_loads_the_pads_in_order
    (w : World) (fnames : list string) (pads : list Pad) :
  (forall j f p, fnames !! j = Some f -> pads !! j = Some p ->
     (PyCartButton.do_load w f p).1 = Return ()) ->
  let r := PyCart.open_pads w 0 fnames pads in
  length r.2 = length pads /\
  ((length fnames <= length pads)%nat -> r.1 = None) /\
  ((length pads < length fnames)%nat ->
     r.1 = Some (PyCart.OpenIndexError (length pads))) /\
  (forall j f p, fnames !! j = Some f -> pads !! j = Some p ->
     r.2 !! j = Some (PyCartButton.do_load w f p).2) /\
  (forall i, (length fnames <= i)%nat -> r.2 !! i = pads !! i).
Proof.
  intros Hret r.
  destruct (open_pads_returning w fnames 0 pads Hret)
    as (Hlen & Hnone & Hidx & Hload & Hrest).
  fold r in Hlen, Hnone, Hidx, Hload, Hrest.
  split; [exact Hlen |]. split; [intros H; apply Hnone; lia |].
  split; [intros H; apply Hidx; lia |].
  split; [exact Hload |]. intros i Hi. apply Hrest. lia.
Qed.

Lemma open_loads_the_pads_in_order_witness :
  let fnames := ["/home/dj/kick.wav"; "/home/dj/notes.txt"] in
  let pads := PyCart.create_widgets "#d9d9d9" in
  let r := PyCart.open_pads example_world 0 fnames pads in
  (forall j f p, fnames !! j = Some f -> pads !! j = Some p ->
     (PyCartButton.do_load example_world f p).1 = Return ()) /\
  r.1 = None /\ length r.2 = 9%nat.
Proof.
  intros fnames pads r.
  assert (Hret : forall j f p, fnames !! j = Some f -> pads !! j = Some p ->
            (PyCartButton.do_load example_world f p).1 = Return ()).
  { intros [| [| j]] f p Hf Hp; simpl in Hf, Hp;
      try discriminate Hf; injection Hf as <-; injection Hp as <-;
      reflexivity. }
  split; [exact Hret |].
  destruct (open_loads_the_pads_in_order example_world fnames pads Hret)
    as (Hlen & Hnone & _).
  split; [apply Hnone; simpl; lia | exact Hlen].
Defined.

(** X16: the first entry whose [do_load] raises (a file that does not
    exist, a file [wave] cannot read) ends the loop of [open] with that
    exception: the entries before it have been loaded into their pads, and
    the pad of that entry and all the pads after it are as they were, so
    the entries that follow are not loaded. *)
Theorem open_stops_at_the_first_exception
    (w : World) (before : list string) (f : string) (after : list string)
    (pads : list Pad) (p : Pad) (e : exn) :
  (forall j f' p', before !! j = Some f' -> pads !! j = Some p' ->
     (PyCartButton.do_load w f' p').1 = Return ()) ->
  pads !! length before = Some p ->
  (PyCartButton.do_load w f p).1 = Raise e ->
  let r := PyCart.open_pads w 0 (before ++ f :: after) pads in
  r.1 = Some (PyCart.OpenRaised e) /\
  length r.2 = length pads /\
  (forall i, (length before <= i)%nat -> r.2 !! i = pads !! i) /\
  (forall j f' p', before !! j = Some f' -> pads !! j = Some p' ->
     r.2 !! j = Some (PyCartButton.do_load w f' p').2).
Proof.
  intros Hret Hp Hraise r.
  destruct (open_pads_raising w f after e before 0 pads p Hret Hp Hraise)
    as (Herr & Hlen & Hrest & Hload).
  fold r in Herr, Hlen, Hrest, Hload.
  split; [exact Herr |]. split; [exact Hlen |].
  split; [| exact Hload]. intros i Hi. apply Hrest. lia.
Qed.

Lemma open_stops_at_the_first_exception_witness :
  let pads := PyCart.create_widgets "#d9d9d9" in
  let r := PyCart.open_pads example_world 0
             (["/home/dj/kick.wav"] ++
              "/home/dj/snare.wav" :: ["/home/dj/kick.wav"]) pads in
  pads !! 1%nat = Some (PyCartButton.init 2 "#d9d9d9") /\
  r.1 = Some (PyCart.OpenRaised (FileNotFoundError "/home/dj/snare.wav")) /\
  r.2 !! 2%nat = Some (PyCartButton.init 3 "#d9d9d9").
Proof.
  intros pads r. split; [reflexivity |].
  destruct (open_stops_at_the_first_exception example_world
              ["/home/dj/kick.wav"] "/home/dj/snare.wav"
              ["/home/dj/kick.wav"] pads (PyCartButton.init 2 "#d9d9d9")
              (FileNotFoundError "/home/dj/snare.wav"))
    as (Herr & _ & Hrest & _).
  - intros [| j] f' p' Hf Hp'; simpl in Hf, Hp'; try discriminate Hf.
    injection Hf as <-. injection Hp' as <-. reflexivity.
  - reflexivity.
  - reflexivity.
  - split; [exact Herr |]. rewrite Hrest by (simpl; lia). reflexivity.
Defined.

(** ** Overlapping playbacks *)

Lemma unit_step_middle (l1 l2 : list unit_pc) (pc : unit_pc)
    (b : PyCartButton) (shown : list (string * string)) (esc : list exn)
    (h : list pad_event) :
  PyCartButton.unit_step (length l1)
    (mk_Pad b (l1 ++ pc :: l2) shown esc h) =
  match pc with
  | AtStartCallback =>
      mk_Pad (PyCartButton._on_start b) (l1 ++ AtPlay :: l2) shown esc
        (EvOnStart (length l1) :: h)
  | AtPlay =>
      mk_Pad b (l1 ++ AtWaitDone :: l2) shown esc
        (EvAudioBegin (length l1) :: h)
  | AtWaitDone =>
      mk_Pad b (l1 ++ AtStopCallback :: l2) shown esc
        (EvAudioDone (length l1) :: h)
  | AtStopCallback =>
      mk_Pad (PyCartButton._on_stop b) (l1 ++ UnitDone :: l2) shown esc
        (EvOnStop (length l1) :: h)
  | UnitDone => mk_Pad b (l1 ++ pc :: l2) shown esc h
  end.
Proof.
  unfold PyCartButton.unit_step. simpl.
  rewrite list_lookup_middle by reflexivity.
  destruct pc; unfold PyCartButton.at_unit; simpl;
    rewrite ?insert_app_r_alt, ?Nat.sub_diag by lia; reflexivity.
Qed.

(** X17: the pad does not keep playbacks apart.  [play] from the menu
    starts a thread on a disabled pad too, and two clicks made before the
    first thread has called [_on_start] start two threads.  When the first
    of two such threads has returned, the pad is enabled and shows Loaded
    while the second is still playing, so a further click starts a third
    playback. *)
Theorem enabled_pad_may_still_be_playing
    (w : World) (p : Pad) (a : PyCartAudio) :
  _file (button p) = Some a ->
  units (PyCartButton.play p) = (units p ++ [AtStartCallback])%list /\
  (widget_state (button p) = NORMAL ->
   let u := length (units p) in
   let q := PyCartButton.run w
              ([PyCartButton.Click; PyCartButton.Click;
                PyCartButton.UnitStep u; PyCartButton.UnitStep (S u)] ++
               replicate 3 (PyCartButton.UnitStep u)) p in
   units q = (units p ++ [UnitDone; AtPlay])%list /\
   widget_state (button q) = NORMAL /\
   visual_state (button q) = Loaded /\
   units (PyCartButton.on_click q) =
     (units p ++ [UnitDone; AtPlay; AtStartCallback])%list).
Proof.
  intros Hfile. split.
  - unfold PyCartButton.play. rewrite Hfile. reflexivity.
  - intros Hnormal u q. subst q u.
    unfold PyCartButton.run.
    cbn [foldl replicate PyCartButton.step app].
    rewrite (click_starts_a_thread p a Hfile Hnormal).
    rewrite (click_starts_a_thread _ a) by (simpl; assumption).
    cbn [units button errors_shown escaped history].
    rewrite <- app_assoc. cbn [app].
    rewrite (unit_step_middle (units p) [AtStartCallback]).
    replace (S (length (units p)))
      with (length (units p ++ [AtPlay])%list)
      by (rewrite length_app; simpl; lia).
    replace (units p ++ [AtPlay; AtStartCallback])%list
      with ((units p ++ [AtPlay]) ++ [AtStartCallback])%list
      by (rewrite <- app_assoc; reflexivity).
    rewrite (unit_step_last (units p ++ [AtPlay])).
    rewrite <- app_assoc. cbn [app].
    rewrite !(unit_step_middle (units p) [AtPlay]).
    cbn [units button].
    split; [reflexivity |]. split; [reflexivity |]. split; [reflexivity |].
    unfold PyCartButton.on_click, PyCartButton.play. simpl.
    rewrite Hfile. simpl. rewrite <- app_assoc. reflexivity.
Qed.

Lemma enabled_pad_may_still_be_playing_witness :
  let p := PyCartButton.run example_world
             [PyCartButton.DoLoad "/home/dj/kick.wav"]
             (PyCartButton.init 1 "#d9d9d9") in
  let q := PyCartButton.run example_world
             [PyCartButton.Click; PyCartButton.Click;
              PyCartButton.UnitStep 0; PyCartButton.UnitStep 1;
              PyCartButton.UnitStep 0; PyCartButton.UnitStep 0;
              PyCartButton.UnitStep 0] p in
  widget_state (button p) = NORMAL /\
  units q = [UnitDone; AtPlay] /\ widget_state (button q) = NORMAL.
Proof.
  intros p q. split; [reflexivity |].
  destruct (enabled_pad_may_still_be_playing example_world p
              (mk_PyCartAudio (mk_SndHeaders "wav" 44100 2 (-1) 16)
                 (mk_WaveObject
                    (String.list_byte_of_string "RIFF....WAVEfmt ") 2 2 44100)
                 "/home/dj/kick.wav") eq_refl) as [_ H].
  destruct (H eq_refl) as (Hunits & Hstate & _).
  split; [exact Hunits | exact Hstate].
Defined.

(** ** Configurations that are not UTF-8 *)

Lemma Exists_skip (b : N) (bs : list N) :
  Exists never_in_utf_8 (b :: bs) -> ~ never_in_utf_8 b ->
  Exists never_in_utf_8 bs.
Proof. intros H Hb. apply Exists_cons in H as [H | H]; tauto. Qed.

Lemma between_spec (lo b hi : N) :
  Codecs.between lo b hi = true <-> (lo <= b <= hi)%N.
Proof.
  unfold Codecs.between. rewrite andb_true_iff, !N.leb_le. tauto.
Qed.

Lemma continuation_spec (b : N) :
  Codecs.continuation b = true <-> (128 <= b <= 191)%N.
Proof.
  unfold Codecs.continuation. rewrite andb_true_iff, !N.leb_le. tauto.
Qed.

Lemma fmap_decode_None (x : N) (bs : list N) :
  Codecs.utf_8_decode bs = None ->
  cons x <$> Codecs.utf_8_decode bs = None.
Proof. intros ->. reflexivity. Qed.

Lemma utf_8_decode_rejects (n : nat) :
  forall bs, (length bs <= n)%nat -> Exists never_in_utf_8 bs ->
  Codecs.utf_8_decode bs = None.
Proof.
  induction n as [| n IH]; intros bs Hlen Hbad.
  - destruct bs; [inversion Hbad | simpl in Hlen; lia].
  - destruct bs as [| b0 r0]; [inversion Hbad |].
    simpl in Hlen. simpl.
    destruct (b0 <? 128)%N eqn:H0.
    { apply N.ltb_lt in H0. apply fmap_decode_None, IH; [lia |].
      apply (Exists_skip b0); [exact Hbad |]. unfold never_in_utf_8. lia. }
    apply N.ltb_ge in H0.
    destruct (Codecs.between 194 b0 223) eqn:H1.
    { apply between_spec in H1.
      destruct r0 as [| b1 r1]; [reflexivity |].
      destruct (Codecs.continuation b1) eqn:C1; [| reflexivity].
      apply continuation_spec in C1. simpl in Hlen.
      apply fmap_decode_None, IH; [lia |].
      apply (Exists_skip b1); [| unfold never_in_utf_8; lia].
      apply (Exists_skip b0); [exact Hbad | unfold never_in_utf_8; lia]. }
    destruct (Codecs.between 224 b0 239) eqn:H2.
    { apply between_spec in H2.
      destruct r0 as [| b1 [| b2 r2]]; try reflexivity.
      destruct (_ && _)%bool eqn:C; [| reflexivity].
      apply andb_true_iff in C as [C1 C2].
      apply between_spec in C1. apply continuation_spec in C2.
      simpl in Hlen.
      assert (Hb1 : (128 <= b1 <= 191)%N)
        by (destruct (b0 =? 224)%N, (b0 =? 237)%N; lia).
      apply fmap_decode_None, IH; [lia |].
      apply (Exists_skip b2); [| unfold never_in_utf_8; lia].
      apply (Exists_skip b1); [| unfold never_in_utf_8; lia].
      apply (Exists_skip b0); [exact Hbad | unfold never_in_utf_8; lia]. }
    destruct (Codecs.between 240 b0 244) eqn:H3; [| reflexivity].
    apply between_spec in H3.
    destruct r0 as [| b1 [| b2 [| b3 r3]]]; try reflexivity.
    destruct (_ && _)%bool eqn:C; [| reflexivity].
    apply andb_true_iff in C as [C C3].
    apply andb_true_iff in C as [C1 C2].
    apply between_spec in C1.
    apply continuation_spec in C2. apply continuation_spec in C3.
    simpl in Hlen.
    assert (Hb1 : (128 <= b1 <= 191)%N)
      by (destruct (b0 =? 240)%N, (b0 =? 244)%N; lia).
    apply fmap_decode_None, IH; [lia |].
    apply (Exists_skip b3); [| unfold never_in_utf_8; lia].
    apply (Exists_skip b2); [| unfold never_in_utf_8; lia].
    apply (Exists_skip b1); [| unfold never_in_utf_8; lia].
    apply (Exists_skip b0); [exact Hbad | unfold never_in_utf_8; lia].
Qed.

(** X18: a configuration file that contains a byte which occurs in no
    UTF-8 text (C0, C1, or F5 to FF, as in a Latin-1 file with a y with
    diaeresis) is never parsed: [load_conf] raises [UnicodeDecodeError],
    wherever the byte is and whatever the parser would do. *)
Theorem load_conf_rejects_bytes_outside_utf_8
    (w : World) (filename : string) (content : bytes) :
  fs w !! filename = Some content ->
  Exists (fun b => never_in_utf_8 (Byte.to_N b)) content ->
  load_conf w filename = Raise UnicodeDecodeError.
Proof.
  intros Hfs Hbad.
  assert (Hdec : Codecs.utf_8_decode (Byte.to_N <$> content) = None).
  { apply (utf_8_decode_rejects (length (Byte.to_N <$> content)));
      [reflexivity |].
    apply Exists_fmap. exact Hbad. }
  unfold load_conf, open_rb, Codecs.decode. rewrite Hfs. simpl.
  change (Codecs.lookup "utf=8") with (Some Codecs.utf_8).
  simpl. rewrite Hdec. reflexivity.
Qed.

Lemma load_conf_rejects_bytes_outside_utf_8_witness :
  let w := mk_World {[ "pads.toml" := [Byte.x61; Byte.xff; Byte.x62] ]}
             (fun _ => None) (fun _ => Raise WaveError)
             (fun _ => Return []) in
  fs w !! "pads.toml" = Some [Byte.x61; Byte.xff; Byte.x62] /\
  load_conf w "pads.toml" = Raise UnicodeDecodeError.
Proof.
  intros w. split; [reflexivity |].
  apply (load_conf_rejects_bytes_outside_utf_8 w "pads.toml"
           [Byte.x61; Byte.xff; Byte.x62]); [reflexivity |].
  apply Exists_cons_tl, Exists_cons_hd.
  unfold never_in_utf_8. simpl. lia.
Defined.
